(** * The recipe importer: spreadsheet record extraction

    A shallow embedding of [parse_excel] and [parse_recipe] from
    [scripts/import-bens-farmhouse-recipes.py], and the properties of the
    extraction that the specification states; then of [insert_recipes_batch]
    and of the decisions of [main], with the record store as environment.

    Modelling choices.
    - A worksheet is the function [ws.cell(row, column).value] together with
      the [max_row] read once at the start of [parse_excel].  Rows and columns
      are Python integers, hence [Z].
    - A cell value is [None], a [str] or a number.  A number is the exact
      rational value of the Python [int] or [float]; infinities and NaN are
      outside the model, and so are boolean and date cells.
    - Three Python builtins belong to the runtime and not to the script:
      [float(s)] on a [str], [str(x)] on a number, and [round(x, 2)] on a
      [float], whose result depends on the binary representation of [x].
      They are the fields of the class [Runtime]; every property is proved
      for an arbitrary runtime.
    - Strings are sequences of characters with code points below 256;
      [str.strip] removes the characters that Python counts as white space
      among them.
    - Exceptions are explicit: a computation returns [Ok v] or [Raise e],
      where [e] is one of the two exceptions that the handlers of the script
      name.  [try ... except (ValueError, TypeError)] is [try_except].
      [OverflowError], which [int] raises on an infinite float, does not
      occur on finite numbers and is not followed.
    - [generate_recipe_id] reads the clock and the random generator.  Both are
      replaced by an oracle [nat -> string] giving the text produced by the
      n-th call of a run; the number of calls made so far is threaded through
      the code. *)

From Stdlib Require Import List ZArith QArith Qround Qreduction String Ascii Bool Lia.
From Stdlib Require Import DecimalString Qabs Lqa Sorted.
Import ListNotations.

Local Open Scope Z_scope.
Local Open Scope string_scope.

(** ** Exceptions *)

Inductive exn : Type := ValueError | TypeError.

Inductive outcome (A : Type) : Type :=
| Ok (a : A)
| Raise (e : exn).

Arguments Ok {A} a.
Arguments Raise {A} e.

Definition bind {A B : Type} (c : outcome A) (k : A -> outcome B) : outcome B :=
  match c with
  | Ok a => k a
  | Raise e => Raise e
  end.

Notation "x <- c ;; k" := (bind c (fun x => k))
  (at level 61, c at next level, right associativity).

(** [try: v = c  except (ValueError, TypeError): v = d] *)
Definition try_except {A : Type} (c : outcome A) (d : A) : A :=
  match c with
  | Ok a => a
  | Raise _ => d
  end.

(** ** Python strings *)

(** [p in s] *)
Fixpoint contains (p s : string) : bool :=
  prefix p s ||
  match s with
  | EmptyString => false
  | String _ t => contains p t
  end.

(** White space as [str.isspace] sees it on the code points below 256. *)
Definition is_space (c : ascii) : bool :=
  let n := nat_of_ascii c in
  ((9 <=? n) && (n <=? 13) || (28 <=? n) && (n <=? 32) || (n =? 133) || (n =? 160))%nat.

Fixpoint lstrip (s : string) : string :=
  match s with
  | EmptyString => EmptyString
  | String c t => if is_space c then lstrip t else s
  end.

Fixpoint rstrip (s : string) : string :=
  match s with
  | EmptyString => EmptyString
  | String c t =>
      match rstrip t with
      | EmptyString => if is_space c then EmptyString else String c EmptyString
      | t' => String c t'
      end
  end.

(** [s.strip()] *)
Definition strip (s : string) : string := rstrip (lstrip s).

(** [range(a, b)] and [range(a, b, -1)] *)
Definition range (a b : Z) : list Z :=
  map (fun i => a + Z.of_nat i) (seq 0 (Z.to_nat (b - a))).

Definition range_down (a b : Z) : list Z :=
  map (fun i => a - Z.of_nat i) (seq 0 (Z.to_nat (a - b))).

(** ** Cells and worksheets *)

Inductive cell_value : Type :=
| VNone
| VStr (s : string)
| VNum (q : Q).

Record worksheet : Type := {
  cell : Z -> Z -> cell_value;   (* ws.cell(row=r, column=c).value *)
  max_row : Z
}.

(** Truth value of a cell in [if v] / [v or d]. *)
Definition truthy (v : cell_value) : bool :=
  match v with
  | VNone => false
  | VStr s => negb (s =? "")
  | VNum q => negb (Qeq_bool q 0)
  end.

Definition is_none (v : cell_value) : bool :=
  match v with
  | VNone => true
  | _ => false
  end.

(** The conversions supplied by the Python runtime. *)
Class Runtime : Type := {
  float_of_str : string -> option Q;   (* float(s); None is ValueError *)
  str_of_num : Q -> string;            (* str(x) on an int or a float *)
  round2 : Q -> Q                      (* round(x, 2), x the float nearest to
                                          the number; the quotient of two
                                          floats is the float nearest to
                                          their exact quotient *)
}.

(** A Python number with its type: [round] keeps an [int] as it is. *)
Inductive number : Type :=
| PyInt (z : Z)
| PyFloat (q : Q).

(** A law of [round(x, 2)] on floats: a whole number that a float holds
    exactly is left as it is. *)
Definition keeps_whole_numbers (round : Q -> Q) : Prop :=
  forall (z : Z) (q : Q),
    Z.abs z <= 2 ^ 53 -> q == inject_Z z -> round q == inject_Z z.

(** [int(x)] on a finite float: truncation towards zero.  On an infinity
    [int] raises OverflowError, which is outside the model. *)
Definition int_of_float (q : Q) : Z := Z.quot (Qnum q) (Zpos (Qden q)).

(** Rounding of an exact rational to the nearest multiple of 1/100, ties to
    the even one.  This is what [round(x, 2)] gives when [x] and the result
    are floats without representation error; it serves the runtime of the
    concrete runs only. *)
Definition round_half_even (q : Q) : Z :=
  let f := Qfloor q in
  match Qcompare (q - inject_Z f)%Q (1 # 2)%Q with
  | Lt => f
  | Gt => f + 1
  | Eq => if Z.even f then f else f + 1
  end.

Definition round2_exact (q : Q) : Q := Qred (Qmake (round_half_even (q * 100)%Q) 100).

(** [x if x else d] and [x or d] on an optional number. *)
Definition num_or (o : option Q) (d : Q) : Q :=
  match o with
  | Some q => if Qeq_bool q 0 then d else q
  | None => d
  end.

(** [s or ""] on an optional string. *)
Definition str_or_empty (o : option string) : string :=
  match o with
  | Some s => s
  | None => ""
  end.

(** ** Output records

    The keys of the two dictionaries that depend on the worksheet.  Keys bound
    to a literal ([status], [owner_email], the empty allergen lists, ...) and
    keys that repeat [total_yield_val] or [serving_size] under a second name
    are left out. *)

Record ingredient : Type := {
  ing_name : string;
  ing_source : string;
  ing_quantity : Q;
  ing_cost : Q;
  ing_yield_percent : Q;
  ing_quantity_in_grams : Q;
  ing_yield_quantity_in_grams : Q;
  ing_ingredient_id : string;
  ing_entity_ingredient_id : string;
  ing_sub_recipe_name : option string
}.

Record recipe : Type := {
  rcp_id : string;
  rcp_name : string;
  rcp_category : string;
  rcp_description : string;
  rcp_preparation_time_minutes : option Z;
  rcp_scale_factor : Q;               (* serving.scale_factor *)
  rcp_total_yield_grams : Q;          (* serving.total_yield_grams *)
  rcp_serving_size_grams : Q;         (* serving.serving_size_grams *)
  rcp_calories : Q;                   (* nutrition.summary.calories *)
  rcp_ingredients : list ingredient;
  rcp_source_recipe_id : option string
}.

(** The local variables that the metadata loop of [parse_recipe] assigns. *)
Record metadata : Type := {
  recipe_id_source : option string;
  total_yield : option Q;
  total_calories : option Q;
  per_serving_weight : option Q;
  description : option string;
  prep_time : option Z
}.

Definition no_metadata : metadata :=
  {| recipe_id_source := None; total_yield := None; total_calories := None;
     per_serving_weight := None; description := None; prep_time := None |}.

Definition set_recipe_id_source (m : metadata) (v : option string) : metadata :=
  {| recipe_id_source := v; total_yield := total_yield m;
     total_calories := total_calories m; per_serving_weight := per_serving_weight m;
     description := description m; prep_time := prep_time m |}.

Definition set_total_yield (m : metadata) (v : option Q) : metadata :=
  {| recipe_id_source := recipe_id_source m; total_yield := v;
     total_calories := total_calories m; per_serving_weight := per_serving_weight m;
     description := description m; prep_time := prep_time m |}.

Definition set_total_calories (m : metadata) (v : option Q) : metadata :=
  {| recipe_id_source := recipe_id_source m; total_yield := total_yield m;
     total_calories := v; per_serving_weight := per_serving_weight m;
     description := description m; prep_time := prep_time m |}.

Definition set_per_serving_weight (m : metadata) (v : option Q) : metadata :=
  {| recipe_id_source := recipe_id_source m; total_yield := total_yield m;
     total_calories := total_calories m; per_serving_weight := v;
     description := description m; prep_time := prep_time m |}.

Definition set_description (m : metadata) (v : option string) : metadata :=
  {| recipe_id_source := recipe_id_source m; total_yield := total_yield m;
     total_calories := total_calories m; per_serving_weight := per_serving_weight m;
     description := v; prep_time := prep_time m |}.

Definition set_prep_time (m : metadata) (v : option Z) : metadata :=
  {| recipe_id_source := recipe_id_source m; total_yield := total_yield m;
     total_calories := total_calories m; per_serving_weight := per_serving_weight m;
     description := description m; prep_time := v |}.

(** The state of the second pass of [parse_excel]: the two variables the loop
    over the markers updates, and the number of identifiers drawn so far. *)
Record scan_state : Type := {
  current_category : option string;
  recipes : list recipe;
  drawn : nat
}.

(** [generate_recipe_id()]: the text after [recipe_] is the clock value and
    the random suffix of this call. *)
Definition generate_recipe_id (ids : nat -> string) (n : nat) : string * nat :=
  ("recipe_" ++ ids n, S n).

(** The names that are never a recipe name:
    [val in ["BEN'S FARMHOUSE", "Ingredients", "S.No"] or val == ''] *)
Definition is_header (val : string) : bool :=
  existsb (String.eqb val) ["BEN'S FARMHOUSE"; "Ingredients"; "S.No"] || (val =? "").

(** ['20' in val and ('-' in val or '/' in val) and len(val) < 25] *)
Definition is_date_like (val : string) : bool :=
  contains "20" val && (contains "-" val || contains "/" val)
  && (Z.of_nat (String.length val) <? 25)%Z.

(** [total_yield_val / serving_size if serving_size > 0 else 1]: the float
    quotient, or the [int] 1 *)
Definition scale_factor (total_yield_val serving_size : Q) : number :=
  if Qle_bool serving_size 0 then PyInt 1
  else PyFloat (total_yield_val / serving_size)%Q.

Notation "' pat <- c ;; k" :=
  (bind c (fun x => match x with pat => k end))
  (at level 61, pat pattern, c at next level, right associativity).

(** ** The script *)

Section Model.

Context {RT : Runtime}.

(** [str(v)] *)
Definition str (v : cell_value) : string :=
  match v with
  | VNone => "None"
  | VStr s => s
  | VNum q => str_of_num q
  end.

(** [float(v)] *)
Definition py_float (v : cell_value) : outcome Q :=
  match v with
  | VNone => Raise TypeError
  | VStr s =>
      match float_of_str s with
      | Some q => Ok q
      | None => Raise ValueError
      end
  | VNum q => Ok q
  end.

(** [int(float(str(a_val)))] *)
Definition ordinal (a_val : cell_value) : outcome Z :=
  q <- py_float (VStr (str a_val)) ;;
  Ok (int_of_float q).

(** [a_val and str(a_val).strip() == 'Ingredients'] *)
Definition is_ingredients_label (a_val : cell_value) : bool :=
  truthy a_val && (strip (str a_val) =? "Ingredients").

(** *** [parse_excel], pass 1 *)

Definition recipe_id_rows (ws : worksheet) : list Z :=
  filter (fun row =>
            let b_val := cell ws row 2 in
            truthy b_val && contains "Recipe ID" (str b_val))
         (range 1 (max_row ws + 1)).

(** *** [parse_excel], pass 2: the name above a marker

    The loop over [range(rid_row - 1, max(rid_row - 5, 0), -1)]; the result is
    the pair [(recipe_name, recipe_name_row)], or [None] when the loop ends
    without its [break]. *)
Fixpoint find_name_loop (ws : worksheet) (rows : list Z) : option (string * Z) :=
  match rows with
  | [] => None
  | r :: rest =>
      let a_val := cell ws r 1 in
      let b_val := cell ws r 2 in
      if truthy a_val && negb (truthy b_val) then
        let val := strip (str a_val) in
        if is_header val then find_name_loop ws rest
        else if is_date_like val then find_name_loop ws rest
        else Some (val, r)
      else find_name_loop ws rest
  end.

Definition find_name (ws : worksheet) (rid_row : Z) : option (string * Z) :=
  find_name_loop ws (range_down (rid_row - 1) (Z.max (rid_row - 5) 0)).

(** *** [parse_excel], pass 2: the category above the name

    The loop over [range(recipe_name_row - 1, max(recipe_name_row - 5, 0), -1)];
    the result is the value the loop assigns to [current_category], or [None]
    when it assigns nothing. *)
Fixpoint find_category_loop (ws : worksheet) (rid_rows : list Z) (idx : nat)
         (rows : list Z) : option string :=
  match rows with
  | [] => None
  | r :: rest =>
      let a_val := cell ws r 1 in
      let b_val := cell ws r 2 in
      if is_none a_val && is_none b_val then
        find_category_loop ws rid_rows idx rest
      else if truthy a_val && negb (truthy b_val) then
        let val := strip (str a_val) in
        if is_header val then None
        else if is_date_like val then None
        else
          match float_of_str val with
          | Some _ => None
          | None =>
              if (0 <? idx)%nat then
                let prev_rid_row := nth (idx - 1) rid_rows 0 in
                if (prev_rid_row <? r)%Z then Some val else None
              else Some val
          end
      else None
  end.

Definition find_category (ws : worksheet) (rid_rows : list Z) (idx : nat)
           (recipe_name_row : Z) : option string :=
  find_category_loop ws rid_rows idx
    (range_down (recipe_name_row - 1) (Z.max (recipe_name_row - 5) 0)).

(** *** [parse_recipe]: metadata *)

(** The [if b_val:] block of one row. *)
Definition read_labelled (ws : worksheet) (row : Z) (m : metadata) : metadata :=
  let b_val := cell ws row 2 in
  let c_val := cell ws row 3 in
  if truthy b_val then
    let b_str := strip (str b_val) in
    if contains "Recipe ID" b_str then
      set_recipe_id_source m (if truthy c_val then Some (strip (str c_val)) else None)
    else if contains "Total Yield" b_str then
      set_total_yield m
        (try_except (if truthy c_val then q <- py_float c_val ;; Ok (Some q)
                     else Ok None) None)
    else if contains "Description" b_str then
      set_description m (Some (if truthy c_val then strip (str c_val) else ""))
    else if contains "Preparation Time" b_str then
      set_prep_time m
        (try_except (if truthy c_val then q <- py_float c_val ;; Ok (Some (int_of_float q))
                     else Ok None) None)
    else m
  else m.

(** The body of [for col in [6, 7]]. *)
Definition read_pair (ws : worksheet) (row : Z) (m : metadata) (col : Z) : metadata :=
  let h := cell ws row col in
  if truthy h then
    let h_str := strip (str h) in
    if contains "Calories" h_str then
      let v := cell ws row (col + 1) in
      if is_none v then m
      else match py_float v with
           | Ok q => set_total_calories m (Some q)
           | Raise _ => m
           end
    else if contains "Per Serving Weight" h_str then
      let v := cell ws row (col + 1) in
      if is_none v then m
      else match py_float v with
           | Ok q => set_per_serving_weight m (Some q)
           | Raise _ => m
           end
    else m
  else m.

(** The loop over [range(rid_row, min(rid_row + 8, max_row + 1))]. *)
Fixpoint metadata_loop (ws : worksheet) (rows : list Z) (m : metadata) : metadata :=
  match rows with
  | [] => m
  | row :: rest =>
      let m1 := read_labelled ws row m in
      let m2 := fold_left (read_pair ws row) [6; 7] m1 in
      if is_ingredients_label (cell ws row 1) then m2
      else metadata_loop ws rest m2
  end.

Definition parse_metadata (ws : worksheet) (rid_row max_row : Z) : metadata :=
  metadata_loop ws (range rid_row (Z.min (rid_row + 8) (max_row + 1))) no_metadata.

(** *** [parse_recipe]: the start of the ingredient rows *)

Fixpoint ingredients_start_loop (ws : worksheet) (rows : list Z) : option Z :=
  match rows with
  | [] => None
  | row :: rest =>
      if is_ingredients_label (cell ws row 1) then
        let next_row := row + 1 in
        let next_a := cell ws next_row 1 in
        if truthy next_a && contains "S.No" (str next_a)
        then Some (next_row + 1)
        else Some next_row
      else ingredients_start_loop ws rest
  end.

Definition find_ingredients_start (ws : worksheet) (rid_row max_row : Z) : option Z :=
  ingredients_start_loop ws (range rid_row (Z.min (rid_row + 12) (max_row + 1))).

(** *** [parse_recipe]: the ingredient rows *)

(** The effective quantity of a row:
    [[
      qty_val = 0
      try:
          qty_val = float(yield_qty) if yield_qty else (float(quantity) if quantity else 0)
      except (ValueError, TypeError):
          qty_val = 0
    ]] *)
Definition qty_val (yield_qty quantity : cell_value) : Q :=
  try_except
    (if truthy yield_qty then py_float yield_qty
     else if truthy quantity then py_float quantity
     else Ok 0%Q)
    0%Q.

(** [str(v).strip() if v else d] *)
Definition text_or (v : cell_value) (d : string) : string :=
  if truthy v then strip (str v) else d.

(** [float(v) if v else d], outside any [try] *)
Definition float_or (v : cell_value) (d : Q) : outcome Q :=
  if truthy v then py_float v else Ok d.

(** The dictionary [ing] built from one numbered row; [n] identifiers have
    been drawn before. *)
Definition ingredient_of_row (ids : nat -> string) (ws : worksheet) (row : Z) (n : nat)
  : outcome (ingredient * nat) :=
  let ingredient_id := cell ws row 2 in
  let ingredient_name := cell ws row 3 in
  let ingredient_type := cell ws row 4 in
  let sub_recipe_name := cell ws row 5 in
  let quantity := cell ws row 6 in
  let yield_pct := cell ws row 7 in
  let yield_qty := cell ws row 8 in
  let cost := cell ws row 9 in
  let qty := qty_val yield_qty quantity in
  cost_f <- float_or cost 0%Q ;;
  yield_f <- float_or yield_pct 100%Q ;;
  let (rid, n') := generate_recipe_id ids n in
  Ok ({| ing_name := text_or ingredient_name "";
         ing_source := text_or ingredient_type "Ingredient";
         ing_quantity := qty;
         ing_cost := cost_f;
         ing_yield_percent := yield_f;
         ing_quantity_in_grams := qty;
         ing_yield_quantity_in_grams := qty;
         ing_ingredient_id := text_or ingredient_id "";
         ing_entity_ingredient_id := "imported_" ++ rid;
         ing_sub_recipe_name :=
           if truthy sub_recipe_name then Some (strip (str sub_recipe_name)) else None |},
      n').

(** [while row <= max_row: ...; row += 1], as a loop over the rows
    [range(ingredients_start, max_row + 1)] that the counter runs through;
    returning is the [break] of the source. *)
Fixpoint ingredients_loop (ids : nat -> string) (ws : worksheet) (rows : list Z)
         (ingredients : list ingredient) (n : nat) : outcome (list ingredient * nat) :=
  match rows with
  | [] => Ok (ingredients, n)
  | row :: rest =>
      let a_val := cell ws row 1 in
      if negb (is_none a_val) then
        match ordinal a_val with
        | Raise _ => Ok (ingredients, n)
        | Ok _ =>
            ' (ing, n') <- ingredient_of_row ids ws row n ;;
            ingredients_loop ids ws rest (ingredients ++ [ing]) n'
        end
      else
        let b_val := cell ws row 2 in
        let c_val := cell ws row 3 in
        if negb (truthy b_val) && negb (truthy c_val) then Ok (ingredients, n)
        else ingredients_loop ids ws rest ingredients n
  end.

(** [sum(i.get('quantity_in_grams', 0) for i in ingredients)] *)
Definition sum_quantity_in_grams (ingredients : list ingredient) : Q :=
  fold_left Qplus (map ing_quantity_in_grams ingredients) 0%Q.

(** *** [parse_recipe] *)

(** [round(x, 2)] *)
Definition py_round2 (x : number) : Q :=
  match x with
  | PyInt z => inject_Z z
  | PyFloat q => round2 q
  end.

Definition parse_recipe (ids : nat -> string) (ws : worksheet) (recipe_name : string)
           (rid_row max_row : Z) (category : option string) (n : nat)
  : outcome (option recipe * nat) :=
  let m := parse_metadata ws rid_row max_row in
  match find_ingredients_start ws rid_row max_row with
  | None => Ok (None, n)
  | Some ingredients_start =>
      ' (ingredients, n1) <-
        ingredients_loop ids ws (range ingredients_start (max_row + 1)) [] n ;;
      let serving_size := num_or (per_serving_weight m) 100%Q in
      let total_yield_val :=
        num_or (total_yield m) (sum_quantity_in_grams ingredients) in
      let total_yield_val :=
        if Qeq_bool total_yield_val 0 then 100%Q else total_yield_val in
      let scale := scale_factor total_yield_val serving_size in
      let (rid, n2) := generate_recipe_id ids n1 in
      Ok (Some {| rcp_id := rid;
                  rcp_name := recipe_name;
                  rcp_category := str_or_empty category;
                  rcp_description := str_or_empty (description m);
                  rcp_preparation_time_minutes := prep_time m;
                  rcp_scale_factor := py_round2 scale;
                  rcp_total_yield_grams := total_yield_val;
                  rcp_serving_size_grams := serving_size;
                  rcp_calories := num_or (total_calories m) 0%Q;
                  rcp_ingredients := ingredients;
                  rcp_source_recipe_id := recipe_id_source m |},
          n2)
  end.

(** *** [parse_excel], pass 2 *)

(** [not recipe_name] after the name loop. *)
Definition name_missing (found : option (string * Z)) : bool :=
  match found with
  | None => true
  | Some (recipe_name, _) => recipe_name =? ""
  end.

(** One iteration of [for idx, rid_row in enumerate(recipe_id_rows)]. *)
Definition marker_step (ids : nat -> string) (ws : worksheet) (rid_rows : list Z)
           (idx : nat) (rid_row : Z) (st : scan_state) : outcome scan_state :=
  let found := find_name ws rid_row in
  if name_missing found then Ok st
  else
    match found with
    | None => Ok st
    | Some (recipe_name, recipe_name_row) =>
        let category :=
          match find_category ws rid_rows idx recipe_name_row with
          | Some val => Some val
          | None => current_category st
          end in
        ' (parsed, n) <-
          parse_recipe ids ws recipe_name rid_row (max_row ws) category (drawn st) ;;
        Ok {| current_category := category;
              recipes := match parsed with
                         | Some r => recipes st ++ [r]
                         | None => recipes st
                         end;
              drawn := n |}
    end.

Fixpoint markers_loop (ids : nat -> string) (ws : worksheet) (rid_rows : list Z)
         (idx : nat) (rest : list Z) (st : scan_state) : outcome scan_state :=
  match rest with
  | [] => Ok st
  | rid_row :: rest' =>
      st' <- marker_step ids ws rid_rows idx rid_row st ;;
      markers_loop ids ws rid_rows (S idx) rest' st'
  end.

Definition initial_state : scan_state :=
  {| current_category := None; recipes := []; drawn := 0 |}.

Definition parse_excel (ids : nat -> string) (ws : worksheet) : outcome (list recipe) :=
  let rid_rows := recipe_id_rows ws in
  st <- markers_loop ids ws rid_rows 0 rid_rows initial_state ;;
  Ok (recipes st).

End Model.

(** ** A runtime for concrete runs

    Plain decimal notation, which is all the worked sheets below need:
    [float] reads an optional sign, digits and an optional fraction between
    optional white space, and nothing else (no exponent, no "inf", no "nan");
    [str] prints a whole number as Python prints an [int] and any other
    number with its fraction digits; [round] is exact, which is what Python
    gives on the numbers of the worked sheets. *)

Definition digit_of (c : ascii) : option Z :=
  let n := nat_of_ascii c in
  if ((48 <=? n) && (n <=? 57))%nat then Some (Z.of_nat (n - 48)) else None.

Fixpoint read_digits (s : string) (acc : Z) (count : nat) : Z * nat * string :=
  match s with
  | EmptyString => (acc, count, s)
  | String c t =>
      match digit_of c with
      | Some d => read_digits t (10 * acc + d) (S count)
      | None => (acc, count, s)
      end
  end.

Definition decimal_literal (s : string) : option Q :=
  let s := strip s in
  let '(neg, body) :=
    match s with
    | String "-" t => (true, t)
    | String "+" t => (false, t)
    | _ => (false, s)
    end in
  let '(ip, ni, rest) := read_digits body 0 0 in
  let '(fp, nf, rest') :=
    match rest with
    | String "." t => read_digits t 0 0
    | _ => (0, 0%nat, rest)
    end in
  if (rest' =? "") && (0 <? ni + nf)%nat then
    let q := Qred (Qmake (ip * 10 ^ Z.of_nat nf + fp) (Z.to_pos (10 ^ Z.of_nat nf))) in
    Some (if neg then Qopp q else q)
  else None.

Definition str_of_Z (z : Z) : string := NilZero.string_of_int (Z.to_int z).

Fixpoint frac_digits (fuel : nat) (num den : Z) : string :=
  match fuel with
  | O => ""
  | S fuel' =>
      if (num =? 0)%Z then ""
      else String (ascii_of_nat (48 + Z.to_nat (10 * num / den)))
                  (frac_digits fuel' ((10 * num) mod den) den)
  end.

Definition decimal_str (q : Q) : string :=
  let n := Qnum q in
  let d := Zpos (Qden q) in
  if (n mod d =? 0)%Z then str_of_Z (n / d)
  else (if (n <? 0)%Z then "-" else "") ++ str_of_Z (Z.abs n / d) ++ "."
       ++ frac_digits 17 (Z.abs n mod d) d.

Definition decimal_runtime : Runtime :=
  {| float_of_str := decimal_literal; str_of_num := decimal_str; round2 := round2_exact |}.

(** A worksheet given by its rows, first row first; cells outside are empty. *)
Definition sheet_of_rows (rows : list (list cell_value)) : worksheet :=
  {| cell := fun r c =>
       if ((1 <=? r) && (1 <=? c))%Z
       then nth (Z.to_nat (c - 1)) (nth (Z.to_nat (r - 1)) rows []) VNone
       else VNone;
     max_row := Z.max 1 (Z.of_nat (List.length rows)) |}.

(** Identifiers of a run in which the n-th call produces the text [n]. *)
Definition numbered_ids (n : nat) : string := str_of_Z (Z.of_nat n).

Definition constant_ids (n : nat) : string := "x".

(** ** Worked sheets *)

Definition T (s : string) : cell_value := VStr s.
Definition N (z : Z) : cell_value := VNum (inject_Z z).
Definition E : cell_value := VNone.

(** Two recipes; the category row "Soups" stands above the first one only. *)
Definition soups_sheet : worksheet :=
  sheet_of_rows
    [ [T "Soups"];
      [T "Lentil Soup"];
      [E; T "Recipe ID"; T "R1"];
      [E; T "Total Yield (g)"; N 500];
      [T "Ingredients"];
      [T "S.No"; T "ID"; T "Name"];
      [N 1; T "i1"; T "Lentils"; E; E; N 300];
      [N 2; T "i2"; T "Water"; E; E; N 200];
      [];
      [T "Tomato Soup"];
      [E; T "Recipe ID"; T "R2"];
      [T "Ingredients"];
      [N 1; T "i3"; T "Tomato"; E; E; N 250; N 80; N 200] ].

(** A note row without ordinal between two numbered rows, then an empty row
    and one more numbered row. *)
Definition note_sheet : worksheet :=
  sheet_of_rows
    [ [T "Chili"];
      [E; T "Recipe ID"; T "R1"];
      [T "Ingredients"];
      [T "S.No"; T "ID"; T "Name"];
      [N 1; T "i1"; T "Beans"; E; E; N 100];
      [E; E; T "organic"];
      [N 2; T "i2"; T "Salt"; E; E; N 5];
      [];
      [N 3; T "i3"; T "Pepper"; E; E; N 1] ].

(** A yield-adjusted quantity that is text, next to a numeric raw quantity. *)
Definition text_yield_sheet : worksheet :=
  sheet_of_rows
    [ [T "Stew"];
      [E; T "Recipe ID"; T "R1"];
      [T "Ingredients"];
      [N 1; T "i1"; T "Beef"; E; E; N 5; E; T "n/a"] ].

(** A marker with a name above it and no "Ingredients" row below it. *)
Definition no_ingredients_sheet : worksheet :=
  sheet_of_rows
    [ [T "Porridge"];
      [E; T "Recipe ID"; T "R1"];
      [E; T "Description"; T "Oats and milk"] ].

(** A negative per-serving weight. *)
Definition negative_serving_sheet : worksheet :=
  sheet_of_rows
    [ [T "Broth"];
      [E; T "Recipe ID"; T "R1"; E; E; T "Per Serving Weight"; N (-50)];
      [E; T "Total Yield"; N 500];
      [T "Ingredients"];
      [N 1; T "i1"; T "Bones"; E; E; N 500] ].

(** A marker with nothing above it. *)
Definition nameless_sheet : worksheet :=
  sheet_of_rows
    [ [E; T "Recipe ID"; T "R1"];
      [T "Ingredients"];
      [N 1; T "i1"; T "Rice"; E; E; N 100] ].

(** A name that the date rule takes for a date. *)
Definition nuggets_sheet : worksheet :=
  sheet_of_rows
    [ [T "20-piece Nuggets"];
      [E; T "Recipe ID"; T "R1"];
      [T "Ingredients"];
      [N 1; T "i1"; T "Chicken"; E; E; N 400] ].

(** No marker at all. *)
Definition plain_sheet : worksheet :=
  sheet_of_rows [ [T "Notes"]; [T "Ingredients"]; [N 1; T "i1"; T "Salt"] ].

(** ** Notions used to state the properties *)

(** [p] occurs in [s]. *)
Definition occurs_in (p s : string) : Prop :=
  exists pre post : string, s = pre ++ p ++ post.

Section Notions.

Context {RT : Runtime}.

(** What the ingredient loop does with one row: it turns a numbered row into
    a line item, passes over a row that has no ordinal but a value in column B
    or C, and ends at any other row. *)
Inductive row_kind : Type := Numbered | PassedOver | Ends.

Definition classify_row (ws : worksheet) (row : Z) : row_kind :=
  match cell ws row 1 with
  | VNone =>
      if negb (truthy (cell ws row 2)) && negb (truthy (cell ws row 3))
      then Ends else PassedOver
  | a_val =>
      match ordinal a_val with
      | Ok _ => Numbered
      | Raise _ => Ends
      end
  end.

(** The rows among [rows] that the ingredient loop turns into line items. *)
Fixpoint collected_rows (ws : worksheet) (rows : list Z) : list Z :=
  match rows with
  | [] => []
  | row :: rest =>
      match classify_row ws row with
      | Numbered => row :: collected_rows ws rest
      | PassedOver => collected_rows ws rest
      | Ends => []
      end
  end.

(** [ing] is the line item built from row [row]. *)
Definition item_of_row (ids : nat -> string) (ws : worksheet) (row : Z)
           (ing : ingredient) : Prop :=
  exists n : nat, ingredient_of_row ids ws row n = Ok (ing, S n).

(** The category that the marker at position [idx] resolves on its own: the
    assignment to [current_category] in its iteration, if there is one. *)
Definition own_category (ws : worksheet) (rid_rows : list Z) (idx : nat) (rid_row : Z)
  : option string :=
  match find_name ws rid_row with
  | Some (recipe_name, recipe_name_row) =>
      if recipe_name =? "" then None
      else find_category ws rid_rows idx recipe_name_row
  | None => None
  end.

(** The state of the second pass when [k] markers have been processed. *)
Definition state_after (ids : nat -> string) (ws : worksheet) (k : nat)
  : outcome scan_state :=
  markers_loop ids ws (recipe_id_rows ws) 0 (firstn k (recipe_id_rows ws)) initial_state.

End Notions.

(** Output with the generated identifiers blanked. *)
Definition erase_ingredient (i : ingredient) : ingredient :=
  {| ing_name := ing_name i;
     ing_source := ing_source i;
     ing_quantity := ing_quantity i;
     ing_cost := ing_cost i;
     ing_yield_percent := ing_yield_percent i;
     ing_quantity_in_grams := ing_quantity_in_grams i;
     ing_yield_quantity_in_grams := ing_yield_quantity_in_grams i;
     ing_ingredient_id := ing_ingredient_id i;
     ing_entity_ingredient_id := "";
     ing_sub_recipe_name := ing_sub_recipe_name i |}.

Definition erase_recipe (r : recipe) : recipe :=
  {| rcp_id := "";
     rcp_name := rcp_name r;
     rcp_category := rcp_category r;
     rcp_description := rcp_description r;
     rcp_preparation_time_minutes := rcp_preparation_time_minutes r;
     rcp_scale_factor := rcp_scale_factor r;
     rcp_total_yield_grams := rcp_total_yield_grams r;
     rcp_serving_size_grams := rcp_serving_size_grams r;
     rcp_calories := rcp_calories r;
     rcp_ingredients := map erase_ingredient (rcp_ingredients r);
     rcp_source_recipe_id := rcp_source_recipe_id r |}.

Definition erase_ids (run : outcome (list recipe)) : outcome (list recipe) :=
  match run with
  | Ok rs => Ok (map erase_recipe rs)
  | Raise e => Raise e
  end.

(** Two runs end alike: both return, with related values, or both raise the
    same exception. *)
Definition same_outcome {A : Type} (R : A -> A -> Prop) (x y : outcome A) : Prop :=
  match x, y with
  | Ok a, Ok b => R a b
  | Raise e1, Raise e2 => e1 = e2
  | _, _ => False
  end.

(** *** The specification's wording, for comparison with the code *)

Definition is_digit (c : ascii) : bool :=
  let n := nat_of_ascii c in ((48 <=? n) && (n <=? 57))%nat.

Fixpoint starts_with_digits (k : nat) (s : string) : bool :=
  match k with
  | O => true
  | S k' =>
      match s with
      | EmptyString => false
      | String c t => is_digit c && starts_with_digits k' t
      end
  end.

(** "a 4-digit year pattern": four decimal digits in a row. *)
Fixpoint has_year_pattern (s : string) : bool :=
  starts_with_digits 4 s ||
  match s with
  | EmptyString => false
  | String _ t => has_year_pattern t
  end.

(** "the yield-adjusted quantity if present and parseable, else the raw
    quantity if present and parseable, else zero" *)
Definition effective_quantity_spec {RT : Runtime} (yield_qty quantity : cell_value) : Q :=
  match (if truthy yield_qty then py_float yield_qty else Raise ValueError) with
  | Ok q => q
  | Raise _ =>
      match (if truthy quantity then py_float quantity else Raise ValueError) with
      | Ok q => q
      | Raise _ => 0%Q
      end
  end.

(** ** Notions used to state further properties *)

Section Windows.

Context {RT : Runtime}.

(** A row that the name loop accepts: a value in column A and none in column
    B, the value being neither a header nor date-like. *)
Definition acceptable_name_row (ws : worksheet) (r : Z) : bool :=
  truthy (cell ws r 1) && negb (truthy (cell ws r 2))
  && negb (is_header (strip (str (cell ws r 1))))
  && negb (is_date_like (strip (str (cell ws r 1)))).

(** A marker for which [parse_excel] appends a Record. *)
Definition yields_record (ws : worksheet) (rid_row : Z) : bool :=
  negb (name_missing (find_name ws rid_row))
  && match find_ingredients_start ws rid_row (max_row ws) with
     | Some _ => true
     | None => false
     end.

(** A cell on which [float(v) if v else d] raises. *)
Definition raises_on (v : cell_value) : bool :=
  truthy v && match py_float v with
              | Ok _ => false
              | Raise _ => true
              end.

End Windows.

(** The identifiers of the output, in the order in which they are drawn. *)
Definition id_texts (out : list recipe) : list string :=
  flat_map (fun r => map ing_entity_ingredient_id (rcp_ingredients r) ++ [rcp_id r])%list out.


(** ** [insert_recipes_batch]

    The record store is the environment: [server history request] is the
    answer of [urllib.request.urlopen] to [request] when [history] are the
    requests sent before it.  [Created] is a response.  [HTTPError] is the
    exception the function catches; its handler first reads the body of the
    error with [e.read().decode('utf-8')] and prints it, which raises when
    the body cannot be read, is not UTF-8 or cannot be printed, and
    [HTTPError reported] tells whether this report goes through.
    [TransportError] is any other exception of [urlopen], which the function
    lets through.  The pause between batches is left out, and so are the
    progress lines, which hold numbers and fixed text only. *)

(** A Record without the keys that start with an underscore:
    [{k: v for k, v in r.items() if not k.startswith('_')}].  The only such
    key is [_source_recipe_id]. *)
Record payload : Type := {
  pay_id : string;
  pay_name : string;
  pay_category : string;
  pay_description : string;
  pay_preparation_time_minutes : option Z;
  pay_scale_factor : Q;
  pay_total_yield_grams : Q;
  pay_serving_size_grams : Q;
  pay_calories : Q;
  pay_ingredients : list ingredient
}.

Definition clean (r : recipe) : payload :=
  {| pay_id := rcp_id r;
     pay_name := rcp_name r;
     pay_category := rcp_category r;
     pay_description := rcp_description r;
     pay_preparation_time_minutes := rcp_preparation_time_minutes r;
     pay_scale_factor := rcp_scale_factor r;
     pay_total_yield_grams := rcp_total_yield_grams r;
     pay_serving_size_grams := rcp_serving_size_grams r;
     pay_calories := rcp_calories r;
     pay_ingredients := rcp_ingredients r |}.

Inductive request : Type :=
| PostBatch (clean_batch : list payload)   (* json.dumps(clean_batch) *)
| PostSingle (recipe : payload).           (* json.dumps(recipe) *)

Inductive reply : Type :=
| Created
| HTTPError (reported : bool)
| TransportError.

Inductive upload_exn : Type :=
| RangeStepZero      (* ValueError: range() arg 3 must not be zero *)
| UrlopenFailed      (* an exception of urlopen other than HTTPError *)
| ReportFailed.      (* an exception of e.read().decode('utf-8') in a handler *)

Inductive upload_result (A : Type) : Type :=
| Returned (a : A)
| Failed (e : upload_exn).

Arguments Returned {A} a.
Arguments Failed {A} e.

(** The counters of [insert_recipes_batch] and the requests sent so far. *)
Record upload_state : Type := {
  inserted : Z;
  errors : Z;
  sent : list request
}.

(** [range(start, stop, step)] for a step that is not zero; the call site has
    [start = 0] and [stop = total >= 0], for which a negative step gives the
    empty range. *)
Definition range_step (start stop step : Z) : list Z :=
  if (step <? 0)%Z then []
  else map (fun k => start + Z.of_nat k * step)
           (seq 0 (Z.to_nat ((stop - start + step - 1) / step))).

(** [l[i:j]] for [0 <= i <= j] *)
Definition slice {A : Type} (l : list A) (i j : Z) : list A :=
  firstn (Z.to_nat (j - i)) (skipn (Z.to_nat i) l).

(** [for recipe in clean_batch], the one-by-one retry of a refused batch. *)
Fixpoint retry_loop (server : list request -> request -> reply)
         (clean_batch : list payload) (st : upload_state) : upload_result upload_state :=
  match clean_batch with
  | [] => Returned st
  | recipe :: rest =>
      let single_req := PostSingle recipe in
      match server (sent st) single_req with
      | Created =>
          retry_loop server rest
            {| inserted := inserted st + 1; errors := errors st - 1;
               sent := sent st ++ [single_req] |}
      | HTTPError true =>
          retry_loop server rest
            {| inserted := inserted st; errors := errors st;
               sent := sent st ++ [single_req] |}
      | HTTPError false => Failed ReportFailed
      | TransportError => Failed UrlopenFailed
      end
  end.

(** The body of the loop over the batches. *)
Definition post_batch (server : list request -> request -> reply)
           (batch : list recipe) (st : upload_state) : upload_result upload_state :=
  let clean_batch := map clean batch in
  let req := PostBatch clean_batch in
  match server (sent st) req with
  | Created =>
      Returned {| inserted := inserted st + Z.of_nat (List.length batch);
                  errors := errors st;
                  sent := sent st ++ [req] |}
  | HTTPError true =>
      retry_loop server clean_batch
        {| inserted := inserted st;
           errors := errors st + Z.of_nat (List.length batch);
           sent := sent st ++ [req] |}
  | HTTPError false => Failed ReportFailed
  | TransportError => Failed UrlopenFailed
  end.

(** [for i in range(0, total, batch_size)] *)
Fixpoint batches_loop (server : list request -> request -> reply)
         (recipes : list recipe) (batch_size : Z) (starts : list Z) (st : upload_state)
  : upload_result upload_state :=
  match starts with
  | [] => Returned st
  | i :: rest =>
      match post_batch server (slice recipes i (i + batch_size)) st with
      | Returned st' => batches_loop server recipes batch_size rest st'
      | Failed e => Failed e
      end
  end.

(** [insert_recipes_batch] with the requests it sends. *)
Definition upload (server : list request -> request -> reply)
           (recipes : list recipe) (batch_size : Z) : upload_result upload_state :=
  let total := Z.of_nat (List.length recipes) in
  if (batch_size =? 0)%Z then Failed RangeStepZero
  else batches_loop server recipes batch_size (range_step 0 total batch_size)
                    {| inserted := 0; errors := 0; sent := [] |}.

(** [insert_recipes_batch(recipes, batch_size)]: the pair [(inserted, errors)]. *)
Definition insert_recipes_batch (server : list request -> request -> reply)
           (recipes : list recipe) (batch_size : Z) : upload_result (Z * Z) :=
  match upload server recipes batch_size with
  | Returned st => Returned (inserted st, errors st)
  | Failed e => Failed e
  end.

(** *** Reading the requests of a run *)

Definition batch_payloads (req : request) : list payload :=
  match req with
  | PostBatch clean_batch => clean_batch
  | PostSingle _ => []
  end.

Definition single_payloads (req : request) : list payload :=
  match req with
  | PostBatch _ => []
  | PostSingle recipe => [recipe]
  end.

(** The number of Records in a request. *)
Definition request_size (req : request) : Z :=
  match req with
  | PostBatch clean_batch => Z.of_nat (List.length clean_batch)
  | PostSingle _ => 1
  end.

(** The number of Records in the requests of [log] that the server accepted,
    [history] being the requests sent before [log]. *)
Fixpoint accepted_from (server : list request -> request -> reply)
         (history log : list request) : Z :=
  match log with
  | [] => 0
  | req :: rest =>
      (match server history req with
       | Created => request_size req
       | _ => 0
       end) + accepted_from server (history ++ [req]) rest
  end.

(** ** [main] *)

(** [s.lower()] on the code points below 256. *)
Definition lower_char (c : ascii) : ascii :=
  let n := nat_of_ascii c in
  if ((65 <=? n) && (n <=? 90) || (192 <=? n) && (n <=? 222) && negb (n =? 215))%nat
  then ascii_of_nat (n + 32) else c.

Fixpoint lower (s : string) : string :=
  match s with
  | EmptyString => EmptyString
  | String c t => String (lower_char c) (lower t)
  end.

(** The category summary of [main]: a dictionary from category to count, in
    insertion order. *)
Fixpoint dict_get (d : list (string * Z)) (k : string) (default : Z) : Z :=
  match d with
  | [] => default
  | (k', v) :: rest => if (k' =? k)%string then v else dict_get rest k default
  end.

Fixpoint dict_set (d : list (string * Z)) (k : string) (v : Z) : list (string * Z) :=
  match d with
  | [] => [(k, v)]
  | (k', v') :: rest =>
      if (k' =? k)%string then (k', v) :: rest else (k', v') :: dict_set rest k v
  end.

(** [r.get('category', 'Uncategorized') or 'Uncategorized'] *)
Definition shown_category (r : recipe) : string :=
  if (rcp_category r =? "")%string then "Uncategorized" else rcp_category r.

Definition categories (recipes : list recipe) : list (string * Z) :=
  fold_left (fun d r =>
               let cat := shown_category r in
               dict_set d cat (dict_get d cat 0 + 1))
            recipes [].

(** How a run of [main] ends.  [response] is the line that [input] returns
    when it is called. *)
Inductive main_end : Type :=
| ParseRaised (e : exn)
| DryRun (recipes : list recipe)
| Aborted (recipes : list recipe)
| Inserting (recipes : list recipe) (run : upload_result upload_state).

Definition main {RT : Runtime} (ids : nat -> string)
           (server : list request -> request -> reply) (ws : worksheet)
           (argv : list string) (response : string) : main_end :=
  match parse_excel ids ws with
  | Raise e => ParseRaised e
  | Ok recipes =>
      if existsb (String.eqb "--dry-run") argv then DryRun recipes
      else if negb (existsb (String.eqb "--yes") argv)
              && negb (existsb (String.eqb (lower response)) ["yes"; "y"])
      then Aborted recipes
      else Inserting recipes (upload server recipes 50)
  end.

(** Servers and a sheet for concrete runs. *)
Definition accept_all (history : list request) (req : request) : reply := Created.

Definition refuse_batches (history : list request) (req : request) : reply :=
  match req with
  | PostBatch _ => HTTPError true
  | PostSingle _ => Created
  end.

(** A cost that is text. *)
Definition text_cost_sheet : worksheet :=
  sheet_of_rows
    [ [T "Pilaf"];
      [E; T "Recipe ID"; T "R1"];
      [T "Ingredients"];
      [N 1; T "i1"; T "Rice"; E; E; N 200; E; E; T "two dirhams"] ].


(** Identifiers of a run in which the n-th call produces n marks. *)
Fixpoint tally_ids (n : nat) : string :=
  match n with
  | O => ""
  | S k => String "x" (tally_ids k)
  end.

(** [soups_sheet] down to the first "Ingredients" label, with other content
    below it. *)
Definition soups_sheet_changed_below : worksheet :=
  {| cell := fun r c => if (r <=? 5)%Z then cell soups_sheet r c
                        else if (c =? 2)%Z then VStr "Total Yield" else VNum 7;
     max_row := max_row soups_sheet |}.


(** The Records of [soups_sheet], as input of the upload. *)
Definition soups_records : list recipe :=
  match parse_excel (RT := decimal_runtime) numbered_ids soups_sheet with
  | Ok out => out
  | Raise _ => []
  end.


(** A per-serving weight of zero. *)
Definition zero_serving_sheet : worksheet :=
  sheet_of_rows
    [ [T "Broth"];
      [E; T "Recipe ID"; T "R1"; E; E; T "Per Serving Weight"; N 0];
      [E; T "Total Yield"; N 500];
      [T "Ingredients"];
      [N 1; T "i1"; T "Bones"; E; E; N 500] ].


(** * Properties *)

Section Properties.

Context {RT : Runtime}.

(** ** Strings *)

Lemma prefix_app (p s : string) :
  prefix p s = true <-> exists post : string, s = p ++ post.
Proof.
  revert s; induction p as [|a p IH]; intros s.
  - split; [intros _; now exists s | intros _; now destruct s].
  - destruct s as [|b s]; simpl.
    + split; [discriminate | intros [post H]; discriminate].
    + destruct (ascii_dec a b) as [->|Hab].
      * rewrite IH. split; intros [post H]; exists post.
        -- now rewrite H.
        -- now inversion H.
      * split; [discriminate | intros [post H]; congruence].
Qed.

Lemma contains_occurs (p s : string) :
  contains p s = true <-> occurs_in p s.
Proof.
  unfold occurs_in. induction s as [|c t IH].
  - cbn [contains]. rewrite orb_false_r, prefix_app. split.
    + intros [post H]. now exists "", post.
    + intros [pre [post H]]. destruct pre; [now exists post | discriminate].
  - cbn [contains]. rewrite orb_true_iff, prefix_app, IH. split.
    + intros [[post H]|[pre [post H]]].
      * now exists "", post.
      * exists (String c pre), post. simpl. now rewrite H.
    + intros [pre [post H]]. destruct pre as [|c' pre].
      * left. now exists post.
      * right. exists pre, post. simpl in H. now inversion H.
Qed.

Lemma is_date_like_spec (val : string) :
  is_date_like val = true <->
  occurs_in "20" val /\ (occurs_in "-" val \/ occurs_in "/" val)
  /\ (String.length val < 25)%nat.
Proof.
  unfold is_date_like.
  rewrite !andb_true_iff, orb_true_iff, !contains_occurs, Z.ltb_lt.
  split.
  - intros [[H1 H2] H3]. repeat split; [exact H1 | exact H2 | lia].
  - intros [H1 [H2 H3]]. repeat split; [exact H1 | exact H2 | lia].
Qed.

(** ** Numbers *)

Lemma round_half_even_whole (q : Q) (n : Z) :
  q == inject_Z n -> round_half_even q = n.
Proof.
  intros H. unfold round_half_even.
  assert (Hf : Qfloor q = n) by (rewrite H; apply Qfloor_Z).
  rewrite Hf.
  destruct (Qcompare_spec (q - inject_Z n) (1 # 2)) as [He|Hl|Hg].
  - rewrite H in He. exfalso. revert He. generalize (inject_Z n). intros x He.
    assert (Hx : x - x == 0) by ring. rewrite Hx in He. discriminate He.
  - reflexivity.
  - rewrite H in Hg. exfalso. revert Hg. generalize (inject_Z n). intros x Hg.
    assert (Hx : x - x == 0) by ring. rewrite Hx in Hg. discriminate Hg.
Qed.

Lemma round2_exact_keeps_whole_numbers : keeps_whole_numbers round2_exact.
Proof.
  intros z q _ H. unfold round2_exact. rewrite Qred_correct.
  assert (Hq : q * 100 == inject_Z (z * 100)).
  { rewrite H, inject_Z_mult. reflexivity. }
  rewrite (round_half_even_whole _ _ Hq).
  rewrite (Qmake_Qdiv (z * 100) 100), inject_Z_mult.
  generalize (inject_Z z). intros x.
  change (inject_Z (Z.pos 100)) with 100%Q. change (inject_Z 100) with 100%Q.
  field.
Qed.

(** ** Ranges *)

Local Open Scope list_scope.

Lemma range_In (a b r : Z) : In r (range a b) <-> a <= r < b.
Proof.
  unfold range. rewrite in_map_iff. split.
  - intros [i [<- Hi]]. apply in_seq in Hi. lia.
  - intros H. exists (Z.to_nat (r - a)). split; [lia | apply in_seq; lia].
Qed.

Lemma range_empty (a b : Z) : b <= a -> range a b = [].
Proof.
  intros H. unfold range. replace (Z.to_nat (b - a)) with O by lia. reflexivity.
Qed.

Lemma range_cons (a b : Z) : a < b -> range a b = a :: range (a + 1) b.
Proof.
  intros H. unfold range.
  replace (Z.to_nat (b - a)) with (S (Z.to_nat (b - (a + 1)))) by lia.
  cbn [seq map]. f_equal; [lia|].
  rewrite <- seq_shift, map_map. apply map_ext. intros i. lia.
Qed.

Lemma range_split (a m b : Z) :
  a <= m <= b -> range a b = range a m ++ range m b.
Proof.
  intros H. remember (Z.to_nat (m - a)) as k eqn:Hk.
  revert a H Hk. induction k as [|k IH]; intros a H Hk.
  - assert (m = a) by lia. subst m. now rewrite (range_empty a a) by lia.
  - rewrite (range_cons a b), (range_cons a m) by lia.
    cbn [app]. f_equal. apply IH; lia.
Qed.

(** ** The ingredient loop *)

Lemma ingredient_of_row_inv ids ws row n ing n' :
  ingredient_of_row ids ws row n = Ok (ing, n') ->
  n' = S n
  /\ ing_quantity ing = qty_val (cell ws row 8) (cell ws row 6)
  /\ ing_quantity_in_grams ing = ing_quantity ing
  /\ ing_yield_quantity_in_grams ing = ing_quantity ing.
Proof.
  unfold ingredient_of_row.
  destruct (float_or (cell ws row 9) 0) as [c|e]; [|discriminate].
  destruct (float_or (cell ws row 7) 100) as [y|e]; [|discriminate].
  cbn. intros H. inversion H; subst. cbn. auto.
Qed.

Lemma ingredients_loop_items ids ws rows acc n res n' :
  ingredients_loop ids ws rows acc n = Ok (res, n') ->
  exists items : list ingredient,
    res = acc ++ items
    /\ Forall2 (item_of_row ids ws) (collected_rows ws rows) items.
Proof.
  revert acc n. induction rows as [|row rest IH]; intros acc n H.
  - cbn in H. inversion H; subst. exists []. split; [now rewrite app_nil_r | constructor].
  - cbn [ingredients_loop collected_rows] in *. unfold classify_row.
    destruct (cell ws row 1) as [|s|q] eqn:Ea; cbn [is_none negb] in H.
    + destruct (negb (truthy (cell ws row 2)) && negb (truthy (cell ws row 3))).
      * inversion H; subst. exists []. split; [now rewrite app_nil_r | constructor].
      * now apply IH in H.
    + destruct (ordinal (VStr s)) as [k|e].
      * destruct (ingredient_of_row ids ws row n) as [[ing n1]|e] eqn:Ei;
          [|discriminate]. cbn [bind] in H.
        apply IH in H. destruct H as [items [-> HF]].
        exists (ing :: items). split; [now rewrite <- app_assoc|].
        constructor; [|exact HF].
        exists n. apply ingredient_of_row_inv in Ei as Hn.
        destruct Hn as [-> _]. exact Ei.
      * inversion H; subst. exists []. split; [now rewrite app_nil_r | constructor].
    + destruct (ordinal (VNum q)) as [k|e].
      * destruct (ingredient_of_row ids ws row n) as [[ing n1]|e] eqn:Ei;
          [|discriminate]. cbn [bind] in H.
        apply IH in H. destruct H as [items [-> HF]].
        exists (ing :: items). split; [now rewrite <- app_assoc|].
        constructor; [|exact HF].
        exists n. apply ingredient_of_row_inv in Ei as Hn.
        destruct Hn as [-> _]. exact Ei.
      * inversion H; subst. exists []. split; [now rewrite app_nil_r | constructor].
Qed.

Lemma collected_rows_numbered ws rows r :
  In r (collected_rows ws rows) ->
  In r rows /\ classify_row ws r = Numbered.
Proof.
  induction rows as [|row rest IH]; cbn [collected_rows]; [intros []|].
  destruct (classify_row ws row) eqn:E; intros H.
  - destruct H as [<-|H]; [split; [now left | exact E]|].
    apply IH in H. destruct H. split; [now right | assumption].
  - apply IH in H. destruct H. split; [now right | assumption].
  - destruct H.
Qed.

Lemma collected_rows_end ws pre r0 post r :
  classify_row ws r0 = Ends ->
  In r (collected_rows ws (pre ++ r0 :: post)) -> In r pre.
Proof.
  intros He. induction pre as [|row pre IH]; cbn [app collected_rows].
  - rewrite He. intros [].
  - destruct (classify_row ws row); intros H.
    + destruct H as [<-|H]; [now left | right; auto].
    + right; auto.
    + destruct H.
Qed.

Lemma classify_numbered ws r :
  classify_row ws r = Numbered ->
  cell ws r 1 <> VNone /\ exists k : Z, ordinal (cell ws r 1) = Ok k.
Proof.
  unfold classify_row. destruct (cell ws r 1) as [|s|q].
  - destruct (negb _ && negb _); discriminate.
  - destruct (ordinal (VStr s)) as [k|e]; [|discriminate].
    intros _. split; [discriminate | now exists k].
  - destruct (ordinal (VNum q)) as [k|e]; [|discriminate].
    intros _. split; [discriminate | now exists k].
Qed.


Lemma ingredients_start_none ws rows :
  ingredients_start_loop ws rows = None <->
  forall row : Z, In row rows -> is_ingredients_label (cell ws row 1) = false.
Proof.
  induction rows as [|row rest IH]; cbn [ingredients_start_loop].
  - split; [intros _ r [] | reflexivity].
  - destruct (is_ingredients_label (cell ws row 1)) eqn:E.
    + split.
      * destruct (truthy _ && contains _ _); discriminate.
      * intros H. specialize (H row (or_introl eq_refl)). congruence.
    + rewrite IH. split.
      * intros H r [<-|Hr]; auto.
      * intros H r Hr. apply H. now right.
Qed.

(** ** [parse_recipe] *)

Lemma parse_recipe_none ids ws name rid_row max_row category n :
  find_ingredients_start ws rid_row max_row = None ->
  parse_recipe ids ws name rid_row max_row category n = Ok (None, n).
Proof.
  intros H. unfold parse_recipe. now rewrite H.
Qed.

Lemma parse_recipe_some ids ws name rid_row max_row category n parsed n' :
  parse_recipe ids ws name rid_row max_row category n = Ok (parsed, n') ->
  forall start : Z,
    find_ingredients_start ws rid_row max_row = Some start ->
    exists (r : recipe) (n1 : nat),
      parsed = Some r
      /\ ingredients_loop ids ws (range start (max_row + 1)) [] n
         = Ok (rcp_ingredients r, n1)
      /\ rcp_name r = name
      /\ rcp_category r = str_or_empty category
      /\ rcp_serving_size_grams r
         = num_or (per_serving_weight (parse_metadata ws rid_row max_row)) 100
      /\ rcp_scale_factor r
         = py_round2 (scale_factor (rcp_total_yield_grams r) (rcp_serving_size_grams r)).
Proof.
  intros H start Hs. unfold parse_recipe in H. rewrite Hs in H.
  destruct (ingredients_loop ids ws (range start (max_row + 1)) [] n)
    as [[items n1]|e]; [|discriminate].
  cbn in H. inversion H; subst. eexists; exists n1. cbn. repeat split.
Qed.

(** ** The loop over the markers *)

Lemma marker_step_cases ids ws rid_rows idx rid_row st st' :
  marker_step ids ws rid_rows idx rid_row st = Ok st' ->
  (name_missing (find_name ws rid_row) = true /\ st' = st)
  \/
  (exists (name : string) (name_row : Z) (parsed : option recipe),
      find_name ws rid_row = Some (name, name_row)
      /\ name_missing (find_name ws rid_row) = false
      /\ current_category st'
         = match find_category ws rid_rows idx name_row with
           | Some val => Some val
           | None => current_category st
           end
      /\ parse_recipe ids ws name rid_row (max_row ws) (current_category st') (drawn st)
         = Ok (parsed, drawn st')
      /\ recipes st' = match parsed with
                       | Some r => recipes st ++ [r]
                       | None => recipes st
                       end).
Proof.
  unfold marker_step.
  destruct (name_missing (find_name ws rid_row)) eqn:Em.
  - intros H. inversion H. now left.
  - destruct (find_name ws rid_row) as [[name name_row]|] eqn:Ef; [|discriminate].
    intros H. right. exists name, name_row.
    destruct (parse_recipe _ _ _ _ _ _ _) as [[parsed n]|e] eqn:Ep; [|discriminate].
    cbn in H. inversion H; subst; cbn. exists parsed. repeat split. exact Ep.
Qed.

Lemma marker_step_category ids ws rid_rows idx rid_row st st' :
  marker_step ids ws rid_rows idx rid_row st = Ok st' ->
  current_category st'
  = match own_category ws rid_rows idx rid_row with
    | Some val => Some val
    | None => current_category st
    end.
Proof.
  intros H. apply marker_step_cases in H. unfold own_category.
  destruct H as [[Hm ->]|[name [row [parsed [Hf [Hm [Hc _]]]]]]].
  - unfold name_missing in Hm.
    destruct (find_name ws rid_row) as [[name row]|]; [now rewrite Hm | reflexivity].
  - rewrite Hf in *. cbn in Hm. now rewrite Hm.
Qed.

Lemma markers_loop_app ids ws rid_rows idx l1 l2 st :
  markers_loop ids ws rid_rows idx (l1 ++ l2) st
  = (st1 <- markers_loop ids ws rid_rows idx l1 st ;;
     markers_loop ids ws rid_rows (idx + List.length l1) l2 st1).
Proof.
  revert idx st. induction l1 as [|rid l1 IH]; intros idx st; cbn.
  - now rewrite Nat.add_0_r.
  - destruct (marker_step ids ws rid_rows idx rid st) as [st1|e]; cbn; [|reflexivity].
    rewrite IH. now rewrite Nat.add_succ_comm.
Qed.

Lemma marker_step_extends ids ws rid_rows idx rid_row st st' :
  marker_step ids ws rid_rows idx rid_row st = Ok st' ->
  exists more : list recipe,
    recipes st' = recipes st ++ more /\ (List.length more <= 1)%nat
    /\ (more <> [] -> name_missing (find_name ws rid_row) = false).
Proof.
  intros H. apply marker_step_cases in H.
  destruct H as [[Hm ->]|[name [row [parsed [Hf [Hm [Hc [Hp Hr]]]]]]]].
  - exists []. rewrite app_nil_r. cbn. repeat split; [lia | congruence].
  - destruct parsed as [r|].
    + exists [r]. cbn. repeat split; auto.
    + exists []. rewrite app_nil_r. cbn. repeat split; auto.
Qed.

Lemma markers_loop_extends ids ws rid_rows idx rest st st' :
  markers_loop ids ws rid_rows idx rest st = Ok st' ->
  exists more : list recipe, recipes st' = recipes st ++ more.
Proof.
  revert idx st. induction rest as [|rid rest IH]; intros idx st H; cbn in H.
  - inversion H; subst. exists []. now rewrite app_nil_r.
  - destruct (marker_step ids ws rid_rows idx rid st) as [st1|e] eqn:Es; [|discriminate].
    cbn in H. apply IH in H. destruct H as [more2 H2].
    apply marker_step_extends in Es. destruct Es as [more1 [H1 _]].
    exists (more1 ++ more2). now rewrite H2, H1, app_assoc.
Qed.

Lemma markers_loop_count ids ws rid_rows idx rest st st' :
  markers_loop ids ws rid_rows idx rest st = Ok st' ->
  (List.length (recipes st') <= List.length (recipes st) + List.length rest)%nat
  /\ (List.length (recipes st') = (List.length (recipes st) + List.length rest)%nat ->
      Forall (fun rid => name_missing (find_name ws rid) = false) rest).
Proof.
  revert idx st. induction rest as [|rid rest IH]; intros idx st H; cbn in H.
  - inversion H; subst. cbn. split; [lia | constructor].
  - destruct (marker_step ids ws rid_rows idx rid st) as [st1|e] eqn:Es; [|discriminate].
    cbn in H. apply IH in H. destruct H as [Hle Heq].
    apply marker_step_extends in Es. destruct Es as [more [Hr [Hl Hn]]].
    rewrite Hr, length_app in *. cbn [List.length]. split; [lia|].
    intros Hlen. constructor.
    + apply Hn. destruct more; [cbn in *; lia | discriminate].
    + apply Heq. lia.
Qed.

Lemma markers_loop_category_kept ids ws rid_rows idx rest st st' :
  markers_loop ids ws rid_rows idx rest st = Ok st' ->
  (forall (k : nat) (rid : Z),
      nth_error rest k = Some rid -> own_category ws rid_rows (idx + k) rid = None) ->
  current_category st' = current_category st.
Proof.
  revert idx st. induction rest as [|rid rest IH]; intros idx st H Hown; cbn in H.
  - now inversion H.
  - destruct (marker_step ids ws rid_rows idx rid st) as [st1|e] eqn:Es; [|discriminate].
    cbn in H. apply IH in H.
    + rewrite H. apply marker_step_category in Es. rewrite Es.
      specialize (Hown O rid eq_refl). rewrite Nat.add_0_r in Hown. now rewrite Hown.
    + intros k r Hk. specialize (Hown (S k) r Hk).
      now rewrite Nat.add_succ_comm.
Qed.

(** Every record of the output is the result of [parse_recipe] at a marker. *)
Lemma markers_loop_records ids ws rid_rows idx rest st st' (P : recipe -> Prop) :
  (forall name rid category n r n',
      In rid rest ->
      parse_recipe ids ws name rid (max_row ws) category n = Ok (Some r, n') -> P r) ->
  markers_loop ids ws rid_rows idx rest st = Ok st' ->
  Forall P (recipes st) -> Forall P (recipes st').
Proof.
  revert idx st. induction rest as [|rid rest IH]; intros idx st HP H Hst; cbn in H.
  - now inversion H; subst.
  - destruct (marker_step ids ws rid_rows idx rid st) as [st1|e] eqn:Es; [|discriminate].
    cbn in H. apply IH in H; auto.
    + intros name rid' category n r n' Hin. apply HP. now right.
    + apply marker_step_cases in Es.
      destruct Es as [[Hm ->]|[name [row [parsed [Hf [Hm [Hc [Hp Hr]]]]]]]]; [exact Hst|].
      rewrite Hr. destruct parsed as [r|]; [|exact Hst].
      apply Forall_app. split; [exact Hst|]. constructor; [|constructor].
      eapply HP; [now left | exact Hp].
Qed.

Lemma parse_excel_records ids ws out (P : recipe -> Prop) :
  (forall name rid category n r n',
      In rid (recipe_id_rows ws) ->
      parse_recipe ids ws name rid (max_row ws) category n = Ok (Some r, n') -> P r) ->
  parse_excel ids ws = Ok out ->
  Forall P out.
Proof.
  intros HP H. unfold parse_excel in H.
  destruct (markers_loop _ _ _ _ _ _) as [st|e] eqn:El; [|discriminate].
  cbn in H. inversion H; subst.
  eapply markers_loop_records; [exact HP | exact El | constructor].
Qed.


(** ** The line item scan *)

(** C1 (amended).  The line items of a Record are built, in order, from the
    rows that the scan collects below the "Ingredients" label; every collected
    row carries an ordinal.  A row with an empty ordinal whose columns B and C
    are both empty ends the collection: no row at or after it is collected.  A
    row with an empty ordinal and a value in column B or C does not end it:
    the row is passed over and the scan goes on with the rows below. *)
Theorem line_items_end_at_blank_row ids ws name rid_row max_row category n r n' start
  (Hstart : find_ingredients_start ws rid_row max_row = Some start)
  (Hrun : parse_recipe ids ws name rid_row max_row category n = Ok (Some r, n')) :
  let collected := collected_rows ws (range start (max_row + 1)) in
  Forall2 (item_of_row ids ws) collected (rcp_ingredients r)
  /\ (forall row : Z, In row collected ->
        start <= row <= max_row
        /\ cell ws row 1 <> VNone
        /\ exists k : Z, ordinal (cell ws row 1) = Ok k)
  /\ (forall blank row : Z,
        start <= blank <= max_row ->
        cell ws blank 1 = VNone ->
        truthy (cell ws blank 2) = false ->
        truthy (cell ws blank 3) = false ->
        In row collected -> row < blank)
  /\ (forall (note : Z) (rest : list Z),
        cell ws note 1 = VNone ->
        truthy (cell ws note 2) = true \/ truthy (cell ws note 3) = true ->
        collected_rows ws (note :: rest) = collected_rows ws rest).
Proof.
  intros collected. subst collected.
  destruct (parse_recipe_some _ _ _ _ _ _ _ _ _ Hrun start Hstart)
    as [r' [n1 [Er [Hloop _]]]].
  inversion Er; subst r'. clear Er.
  apply ingredients_loop_items in Hloop. destruct Hloop as [items [Hi HF]].
  cbn [app] in Hi. subst items.
  split; [exact HF|]. split; [|split].
  - intros row Hin. apply collected_rows_numbered in Hin. destruct Hin as [Hr Hc].
    apply range_In in Hr. apply classify_numbered in Hc. split; [lia | exact Hc].
  - intros blank row Hb Ha Hb2 Hb3 Hin.
    rewrite (range_split start blank (max_row + 1)) in Hin by lia.
    rewrite (range_cons blank (max_row + 1)) in Hin by lia.
    apply collected_rows_end in Hin.
    + apply range_In in Hin. lia.
    + unfold classify_row. now rewrite Ha, Hb2, Hb3.
  - intros note rest Ha Hbc. cbn [collected_rows]. unfold classify_row. rewrite Ha.
    destruct Hbc as [H|H]; rewrite H; cbn; [reflexivity|].
    now rewrite andb_false_r.
Qed.

(** Every line item of the output is built from a row of the sheet. *)
Lemma parse_excel_items ids ws out r ing :
  parse_excel ids ws = Ok out ->
  In r out ->
  In ing (rcp_ingredients r) ->
  exists row : Z, item_of_row ids ws row ing.
Proof.
  intros Hout Hr Hi.
  assert (Hall : Forall (fun x => Forall (fun i => exists row : Z, item_of_row ids ws row i)
                                         (rcp_ingredients x)) out).
  { apply (parse_excel_records ids ws); [|exact Hout].
    intros name rid category n r0 n' _ Hp.
    destruct (find_ingredients_start ws rid (max_row ws)) as [start|] eqn:Es.
    - destruct (parse_recipe_some _ _ _ _ _ _ _ _ _ Hp start Es)
        as [r1 [n1 [Er [Hloop _]]]].
      inversion Er; subst r1.
      apply ingredients_loop_items in Hloop. destruct Hloop as [items [Hit HF]].
      cbn [app] in Hit. rewrite Hit. clear Hit.
      induction HF as [|row i rows items' Hrow _ IH]; constructor; [|exact IH].
      now exists row.
    - rewrite parse_recipe_none in Hp by exact Es. discriminate. }
  rewrite Forall_forall in Hall. specialize (Hall r Hr).
  rewrite Forall_forall in Hall. exact (Hall ing Hi).
Qed.

(** C2 (amended).  Every line item of the output is built from a row of the
    sheet, and its effective quantity is the yield-adjusted quantity (column H
    of that row) when that cell is non-empty and parses as a number; it is
    zero when that cell is non-empty and does not parse, whatever the raw
    quantity is; when that cell is empty or zero it is the raw quantity
    (column F) if that one is non-empty and parses, and zero otherwise. *)
Theorem effective_quantity_rule ids ws out r ing
  (Hout : parse_excel ids ws = Ok out)
  (Hr : In r out)
  (Hi : In ing (rcp_ingredients r)) :
  exists row : Z,
    item_of_row ids ws row ing
    /\ let yield_qty := cell ws row 8 in
       let quantity := cell ws row 6 in
       (forall v : Q, truthy yield_qty = true -> py_float yield_qty = Ok v ->
                      ing_quantity ing = v)
       /\ (forall e : exn, truthy yield_qty = true -> py_float yield_qty = Raise e ->
                           ing_quantity ing = 0%Q)
       /\ (forall v : Q, truthy yield_qty = false -> truthy quantity = true ->
                         py_float quantity = Ok v -> ing_quantity ing = v)
       /\ (truthy yield_qty = false ->
           truthy quantity = false \/ (exists e : exn, py_float quantity = Raise e) ->
           ing_quantity ing = 0%Q).
Proof.
  destruct (parse_excel_items ids ws out r ing Hout Hr Hi) as [row Hrow].
  exists row. split; [exact Hrow|]. intros yield_qty quantity.
  destruct Hrow as [n Hrow].
  apply ingredient_of_row_inv in Hrow. destruct Hrow as [_ [Hq _]].
  rewrite Hq. fold yield_qty quantity. unfold qty_val.
  repeat split.
  - intros v Ht Hf. now rewrite Ht, Hf.
  - intros e Ht Hf. now rewrite Ht, Hf.
  - intros v Ht Ht' Hf. now rewrite Ht, Ht', Hf.
  - intros Ht [Ht'|[e Hf]]; rewrite Ht.
    + now rewrite Ht'.
    + destruct (truthy quantity); [now rewrite Hf | reflexivity].
Qed.

(** ** Which markers yield a Record *)

(** C3 (amended).  When the iteration for a marker ends without an exception,
    the marker yields no Record exactly when no name is found in the window
    above it or no "Ingredients" label stands in column A of the rows
    [rid_row .. min(rid_row + 11, max_row)]; otherwise the iteration appends
    exactly one Record, which carries the name found. *)
Theorem marker_yields_record_iff ids ws rid_rows idx rid_row st st'
  (Hstep : marker_step ids ws rid_rows idx rid_row st = Ok st') :
  (recipes st' = recipes st <->
   name_missing (find_name ws rid_row) = true
   \/ find_ingredients_start ws rid_row (max_row ws) = None)
  /\ ((exists r : recipe,
         recipes st' = recipes st ++ [r]
         /\ exists name_row : Z, find_name ws rid_row = Some (rcp_name r, name_row)) <->
      name_missing (find_name ws rid_row) = false
      /\ find_ingredients_start ws rid_row (max_row ws) <> None)
  /\ (find_ingredients_start ws rid_row (max_row ws) = None <->
      forall row : Z,
        rid_row <= row < Z.min (rid_row + 12) (max_row ws + 1) ->
        is_ingredients_label (cell ws row 1) = false).
Proof.
  assert (Hneq : forall (l : list recipe) (r : recipe), l ++ [r] <> l).
  { intros l r H. apply (f_equal (@List.length recipe)) in H.
    rewrite length_app in H. cbn in H. lia. }
  apply marker_step_cases in Hstep.
  split; [|split].
  - destruct Hstep as [[Hm ->]|[name [row [parsed [Hf [Hm [Hc [Hp Hr]]]]]]]].
    + split; auto.
    + destruct (find_ingredients_start ws rid_row (max_row ws)) as [start|] eqn:Es.
      * destruct (parse_recipe_some _ _ _ _ _ _ _ _ _ Hp start Es) as [r [n1 [-> _]]].
        rewrite Hr. split.
        -- intros H. now apply Hneq in H.
        -- intros [H|H]; congruence.
      * rewrite parse_recipe_none in Hp by exact Es. inversion Hp; subst parsed.
        split; auto.
  - destruct Hstep as [[Hm ->]|[name [row [parsed [Hf [Hm [Hc [Hp Hr]]]]]]]].
    + split.
      * intros [r [H _]]. symmetry in H. now apply Hneq in H.
      * intros [H _]. congruence.
    + destruct (find_ingredients_start ws rid_row (max_row ws)) as [start|] eqn:Es.
      * destruct (parse_recipe_some _ _ _ _ _ _ _ _ _ Hp start Es)
          as [r [n1 [-> [_ [Hn _]]]]].
        split.
        -- intros _. split; [exact Hm | discriminate].
        -- intros _. exists r. split; [exact Hr|]. exists row. now rewrite Hn.
      * rewrite parse_recipe_none in Hp by exact Es. inversion Hp; subst parsed.
        split.
        -- intros [r [H _]]. rewrite Hr in H. symmetry in H. now apply Hneq in H.
        -- intros [_ H]. congruence.
  - unfold find_ingredients_start. rewrite ingredients_start_none.
    split; intros H row Hrow; apply H; apply range_In; exact Hrow || (apply range_In in Hrow; exact Hrow).
Qed.


(** ** Categories *)

(** C4.  The category is carried from marker to marker.  Let the marker [m1]
    resolve the category [A], and let [m2] come after it, neither [m2] nor any
    marker between the two resolving a category of its own.  Then the scan
    reaches [m2] with [A] as the current category, the Record that [m2] yields
    has category [A], and that Record is part of the output. *)
Theorem category_is_sticky ids ws before m1 between m2 after A st st' r
  (Hrows : recipe_id_rows ws = before ++ m1 :: between ++ m2 :: after)
  (Hm1 : own_category ws (recipe_id_rows ws) (List.length before) m1 = Some A)
  (Hnone : forall (k : nat) (rid : Z),
      nth_error (between ++ [m2]) k = Some rid ->
      own_category ws (recipe_id_rows ws) (S (List.length before) + k) rid = None)
  (Hrun : markers_loop ids ws (recipe_id_rows ws) 0 (before ++ m1 :: between)
                       initial_state = Ok st)
  (Hstep : marker_step ids ws (recipe_id_rows ws)
                       (S (List.length before) + List.length between) m2 st = Ok st')
  (Hrec : recipes st' = recipes st ++ [r]) :
  current_category st = Some A
  /\ rcp_category r = A
  /\ (forall out : list recipe, parse_excel ids ws = Ok out -> In r out).
Proof.
  assert (Hcat : current_category st = Some A).
  { rewrite markers_loop_app in Hrun.
    destruct (markers_loop ids ws (recipe_id_rows ws) 0 before initial_state)
      as [st0|e]; [|discriminate].
    cbn [bind markers_loop] in Hrun.
    destruct (marker_step ids ws (recipe_id_rows ws) (0 + List.length before) m1 st0)
      as [st1|e] eqn:E1; [|discriminate].
    cbn [bind] in Hrun.
    apply marker_step_category in E1. cbn [Nat.add] in E1. rewrite Hm1 in E1.
    apply markers_loop_category_kept in Hrun; [congruence|].
    intros k rid Hk. cbn [Nat.add]. apply Hnone.
    rewrite nth_error_app1; [exact Hk|]. apply nth_error_Some. congruence. }
  assert (Hown : own_category ws (recipe_id_rows ws)
                   (S (List.length before) + List.length between) m2 = None).
  { apply Hnone. rewrite nth_error_app2 by lia. now rewrite Nat.sub_diag. }
  split; [exact Hcat|]. split.
  - pose proof (marker_step_category _ _ _ _ _ _ _ Hstep) as Hc.
    rewrite Hown, Hcat in Hc.
    apply marker_step_cases in Hstep.
    destruct Hstep as [[_ ->]|[name [row [parsed [_ [_ [_ [Hp Hr]]]]]]]].
    + apply (f_equal (@List.length recipe)) in Hrec.
      rewrite length_app in Hrec. cbn in Hrec. lia.
    + destruct (find_ingredients_start ws m2 (max_row ws)) as [start|] eqn:Es.
      * destruct (parse_recipe_some _ _ _ _ _ _ _ _ _ Hp start Es)
          as [r' [n1 [-> [_ [_ [Hcr _]]]]]].
        rewrite Hr in Hrec. apply app_inj_tail in Hrec. destruct Hrec as [_ ->].
        rewrite Hcr, Hc. reflexivity.
      * rewrite parse_recipe_none in Hp by exact Es. inversion Hp; subst parsed.
        rewrite Hr in Hrec. apply (f_equal (@List.length recipe)) in Hrec.
        rewrite length_app in Hrec. cbn in Hrec. lia.
  - intros out Hout. unfold parse_excel in Hout.
    destruct (markers_loop ids ws (recipe_id_rows ws) 0 (recipe_id_rows ws) initial_state)
      as [fin|e] eqn:Ef; [|discriminate].
    cbn in Hout. inversion Hout; subst out. clear Hout.
    rewrite Hrows in Ef at 2.
    replace (before ++ m1 :: between ++ m2 :: after)
      with ((before ++ m1 :: between) ++ m2 :: after) in Ef
      by (rewrite <- app_assoc; reflexivity).
    rewrite markers_loop_app, Hrun in Ef. cbn [bind markers_loop] in Ef.
    replace (0 + List.length (before ++ m1 :: between))%nat
      with (S (List.length before) + List.length between)%nat in Ef
      by (rewrite length_app; cbn; lia).
    rewrite Hstep in Ef. cbn [bind] in Ef.
    apply markers_loop_extends in Ef. destruct Ef as [more Hm].
    rewrite Hm, Hrec. apply in_or_app. left. apply in_or_app. right. now left.
Qed.

(** ** Serving size and scale factor *)

Lemma parse_recipe_record ids ws name rid_row max_row category n r n' :
  parse_recipe ids ws name rid_row max_row category n = Ok (Some r, n') ->
  exists start : Z, find_ingredients_start ws rid_row max_row = Some start.
Proof.
  intros H. destruct (find_ingredients_start ws rid_row max_row) as [start|] eqn:Es.
  - now exists start.
  - rewrite parse_recipe_none in H by exact Es. discriminate.
Qed.

Lemma num_or_nonzero (o : option Q) (d : Q) : ~ d == 0 -> ~ num_or o d == 0.
Proof.
  intros Hd. unfold num_or. destruct o as [q|]; [|exact Hd].
  destruct (Qeq_bool q 0) eqn:E; [exact Hd|].
  intros H. apply Qeq_bool_iff in H. congruence.
Qed.

(** C5 (amended).  In every Record of the output the serving size is not
    zero; the stored scale factor is [round(total yield / serving size, 2)]
    when the serving size is positive, and is 1 when it is negative.  With
    total yield 500 and serving size 100 it is 5.00, for every [round] that
    leaves alone the whole numbers a float holds exactly. *)
Theorem scale_factor_stored ids ws out r
  (Hout : parse_excel ids ws = Ok out)
  (Hr : In r out) :
  let total_yield_val := rcp_total_yield_grams r in
  let serving_size := rcp_serving_size_grams r in
  ~ serving_size == 0
  /\ (0 < serving_size ->
      rcp_scale_factor r = round2 (total_yield_val / serving_size))%Q
  /\ (serving_size < 0 -> rcp_scale_factor r = 1)%Q
  /\ (keeps_whole_numbers round2 ->
      total_yield_val == 500 -> serving_size == 100 -> rcp_scale_factor r == 5).
Proof.
  intros total_yield_val serving_size.
  assert (Hall : Forall (fun x =>
                   ~ rcp_serving_size_grams x == 0
                   /\ rcp_scale_factor x
                      = py_round2 (scale_factor (rcp_total_yield_grams x)
                                                (rcp_serving_size_grams x))) out).
  { apply (parse_excel_records ids ws); [|exact Hout].
    intros name rid category n r0 n' _ Hp.
    destruct (parse_recipe_record _ _ _ _ _ _ _ _ _ Hp) as [start Hs].
    destruct (parse_recipe_some _ _ _ _ _ _ _ _ _ Hp start Hs)
      as [r1 [n1 [Er [_ [_ [_ [Hss Hsc]]]]]]].
    inversion Er; subst r1. split; [|exact Hsc].
    rewrite Hss. apply num_or_nonzero. intros H; discriminate H. }
  rewrite Forall_forall in Hall. destruct (Hall r Hr) as [Hnz Hsc].
  fold total_yield_val serving_size in Hnz, Hsc.
  assert (Hpos : (0 < serving_size)%Q ->
                 rcp_scale_factor r = round2 (total_yield_val / serving_size)).
  { intros H. rewrite Hsc. unfold scale_factor.
    destruct (Qle_bool serving_size 0) eqn:E; [|reflexivity].
    apply Qle_bool_iff in E. lra. }
  split; [exact Hnz|]. split; [exact Hpos|]. split.
  - intros H. rewrite Hsc. unfold scale_factor.
    assert (E : Qle_bool serving_size 0 = true) by (apply Qle_bool_iff; lra).
    rewrite E. reflexivity.
  - intros Hlaw Ht Hs. rewrite Hpos by (rewrite Hs; reflexivity).
    apply (Hlaw 5); [vm_compute; discriminate|].
    rewrite Ht, Hs. reflexivity.
Qed.

(** C6 (amended).  The serving size of a Record is 100 when the per-serving
    weight was not read or is zero, and is the per-serving weight read from the
    sheet in every other case, a negative one included. *)
Theorem serving_size_rule ids ws name rid_row max_row category n r n'
  (Hrun : parse_recipe ids ws name rid_row max_row category n = Ok (Some r, n')) :
  let weight := per_serving_weight (parse_metadata ws rid_row max_row) in
  (weight = None -> rcp_serving_size_grams r = 100%Q)
  /\ (forall w : Q, weight = Some w -> w == 0 -> rcp_serving_size_grams r = 100%Q)
  /\ (forall w : Q, weight = Some w -> ~ w == 0 -> rcp_serving_size_grams r = w).
Proof.
  intros weight.
  destruct (parse_recipe_record _ _ _ _ _ _ _ _ _ Hrun) as [start Hs].
  destruct (parse_recipe_some _ _ _ _ _ _ _ _ _ Hrun start Hs)
    as [r1 [n1 [Er [_ [_ [_ [Hss _]]]]]]].
  inversion Er; subst r1. fold weight in Hss. rewrite Hss. unfold num_or.
  repeat split.
  - now intros ->.
  - intros w -> Hw. apply Qeq_bool_iff in Hw. now rewrite Hw.
  - intros w -> Hw. destruct (Qeq_bool w 0) eqn:E; [|reflexivity].
    apply Qeq_bool_iff in E. contradiction.
Qed.

(** ** Counting *)

(** C7.  A sheet without marker rows gives the empty sequence.  Whenever the
    extraction returns, it returns at most one Record per marker row, and as
    many Records as marker rows only if every marker resolves a name. *)
Theorem record_count_bounded ids ws :
  (recipe_id_rows ws = [] -> parse_excel ids ws = Ok [])
  /\ (forall out : list recipe,
        parse_excel ids ws = Ok out ->
        (List.length out <= List.length (recipe_id_rows ws))%nat
        /\ (List.length out = List.length (recipe_id_rows ws) ->
            forall rid : Z, In rid (recipe_id_rows ws) ->
                            name_missing (find_name ws rid) = false)).
Proof.
  split.
  - intros H. unfold parse_excel. now rewrite H.
  - intros out H. unfold parse_excel in H.
    destruct (markers_loop _ _ _ _ _ _) as [st|e] eqn:El; [|discriminate].
    cbn in H. inversion H; subst out.
    apply markers_loop_count in El. cbn in El. destruct El as [Hle Heq].
    split; [exact Hle|]. intros Hlen rid Hin.
    specialize (Heq Hlen). rewrite Forall_forall in Heq. now apply Heq.
Qed.


(** ** Name resolution *)

(** C8 (amended).  A candidate name is rejected by the date rule exactly when
    it contains the two characters "20", contains "-" or "/", and is shorter
    than 25 characters; the scan then goes on with the row above.  A candidate
    without "20" is never rejected as a date.  No four-digit year is asked for. *)
Theorem date_rule_exact ws r rest
  (Ha : truthy (cell ws r 1) = true)
  (Hb : truthy (cell ws r 2) = false)
  (Hh : is_header (strip (str (cell ws r 1))) = false) :
  let val := strip (str (cell ws r 1)) in
  let dated := occurs_in "20" val
               /\ (occurs_in "-" val \/ occurs_in "/" val)
               /\ (String.length val < 25)%nat in
  (is_date_like val = true <-> dated)
  /\ (dated -> find_name_loop ws (r :: rest) = find_name_loop ws rest)
  /\ (~ dated -> find_name_loop ws (r :: rest) = Some (val, r))
  /\ (~ occurs_in "20" val -> find_name_loop ws (r :: rest) = Some (val, r)).
Proof.
  intros val dated.
  assert (Hloop : find_name_loop ws (r :: rest)
                  = if is_date_like val then find_name_loop ws rest else Some (val, r)).
  { cbn [find_name_loop]. rewrite Ha, Hb. cbn [negb andb]. fold val.
    unfold val at 1. rewrite Hh. reflexivity. }
  pose proof (is_date_like_spec val) as Hspec. fold dated in Hspec.
  split; [exact Hspec|]. split; [|split].
  - intros Hd. apply Hspec in Hd. now rewrite Hloop, Hd.
  - intros Hd. rewrite Hloop. destruct (is_date_like val); [|reflexivity].
    exfalso. apply Hd. now apply Hspec.
  - intros Hd. rewrite Hloop. destruct (is_date_like val); [|reflexivity].
    exfalso. apply Hd. now apply Hspec.
Qed.

(** ** Generated identifiers *)

Lemma ingredient_of_row_same ids1 ids2 ws row n :
  same_outcome
    (fun a b => erase_ingredient (fst a) = erase_ingredient (fst b) /\ snd a = snd b)
    (ingredient_of_row ids1 ws row n) (ingredient_of_row ids2 ws row n).
Proof.
  unfold ingredient_of_row.
  destruct (float_or (cell ws row 9) 0) as [c|e]; cbn; [|reflexivity].
  destruct (float_or (cell ws row 7) 100) as [y|e]; cbn; [|reflexivity].
  split; reflexivity.
Qed.

Lemma ingredients_loop_same ids1 ids2 ws rows acc1 acc2 n :
  map erase_ingredient acc1 = map erase_ingredient acc2 ->
  same_outcome
    (fun a b => map erase_ingredient (fst a) = map erase_ingredient (fst b)
                /\ snd a = snd b)
    (ingredients_loop ids1 ws rows acc1 n) (ingredients_loop ids2 ws rows acc2 n).
Proof.
  revert acc1 acc2 n. induction rows as [|row rest IH]; intros acc1 acc2 n Hacc.
  - cbn. auto.
  - cbn [ingredients_loop].
    destruct (negb (is_none (cell ws row 1))).
    + destruct (ordinal (cell ws row 1)) as [k|e]; [|cbn; auto].
      pose proof (ingredient_of_row_same ids1 ids2 ws row n) as Hs.
      destruct (ingredient_of_row ids1 ws row n) as [[i1 k1]|e1],
               (ingredient_of_row ids2 ws row n) as [[i2 k2]|e2];
        cbn in Hs; try contradiction; cbn [bind].
      * destruct Hs as [Hi ->]. apply IH.
        rewrite !map_app. cbn. now rewrite Hacc, Hi.
      * exact Hs.
    + destruct (negb (truthy (cell ws row 2)) && negb (truthy (cell ws row 3)));
        [cbn; auto | now apply IH].
Qed.

Lemma erase_keeps_quantities (l1 l2 : list ingredient) :
  map erase_ingredient l1 = map erase_ingredient l2 ->
  sum_quantity_in_grams l1 = sum_quantity_in_grams l2.
Proof.
  intros H. unfold sum_quantity_in_grams. f_equal.
  apply (f_equal (map ing_quantity_in_grams)) in H.
  now rewrite !map_map in H.
Qed.

Lemma parse_recipe_same ids1 ids2 ws name rid_row max_row category n :
  same_outcome
    (fun a b => option_map erase_recipe (fst a) = option_map erase_recipe (fst b)
                /\ snd a = snd b)
    (parse_recipe ids1 ws name rid_row max_row category n)
    (parse_recipe ids2 ws name rid_row max_row category n).
Proof.
  unfold parse_recipe.
  destruct (find_ingredients_start ws rid_row max_row) as [start|]; [|cbn; auto].
  pose proof (ingredients_loop_same ids1 ids2 ws (range start (max_row + 1)) [] [] n
                eq_refl) as Hs.
  destruct (ingredients_loop ids1 ws (range start (max_row + 1)) [] n) as [[l1 k1]|e1],
           (ingredients_loop ids2 ws (range start (max_row + 1)) [] n) as [[l2 k2]|e2];
    cbn in Hs; try contradiction; cbn [bind]; [|exact Hs].
  destruct Hs as [Hl ->]. cbn. split; [|reflexivity].
  unfold erase_recipe. cbn.
  now rewrite (erase_keeps_quantities l1 l2 Hl), Hl.
Qed.

Lemma marker_step_same ids1 ids2 ws rid_rows idx rid_row st1 st2 :
  current_category st1 = current_category st2 ->
  map erase_recipe (recipes st1) = map erase_recipe (recipes st2) ->
  drawn st1 = drawn st2 ->
  same_outcome
    (fun a b => current_category a = current_category b
                /\ map erase_recipe (recipes a) = map erase_recipe (recipes b)
                /\ drawn a = drawn b)
    (marker_step ids1 ws rid_rows idx rid_row st1)
    (marker_step ids2 ws rid_rows idx rid_row st2).
Proof.
  intros Hc Hr Hd. unfold marker_step.
  destruct (name_missing (find_name ws rid_row)); [cbn; auto|].
  destruct (find_name ws rid_row) as [[name row]|]; [|cbn; auto].
  rewrite Hc, Hd.
  set (category := match find_category ws rid_rows idx row with
                   | Some val => Some val
                   | None => current_category st2
                   end).
  pose proof (parse_recipe_same ids1 ids2 ws name rid_row (max_row ws) category
                (drawn st2)) as Hs.
  destruct (parse_recipe ids1 ws name rid_row (max_row ws) category (drawn st2))
    as [[p1 k1]|e1],
    (parse_recipe ids2 ws name rid_row (max_row ws) category (drawn st2))
    as [[p2 k2]|e2];
    cbn in Hs; try contradiction; cbn [bind]; [|exact Hs].
  destruct Hs as [Hp ->]. cbn. repeat split.
  destruct p1 as [r1|], p2 as [r2|]; cbn in Hp; try discriminate; [|exact Hr].
  rewrite !map_app. cbn [map].
  assert (He : erase_recipe r1 = erase_recipe r2) by congruence.
  now rewrite Hr, He.
Qed.

Lemma markers_loop_same ids1 ids2 ws rid_rows idx rest st1 st2 :
  current_category st1 = current_category st2 ->
  map erase_recipe (recipes st1) = map erase_recipe (recipes st2) ->
  drawn st1 = drawn st2 ->
  same_outcome
    (fun a b => map erase_recipe (recipes a) = map erase_recipe (recipes b))
    (markers_loop ids1 ws rid_rows idx rest st1)
    (markers_loop ids2 ws rid_rows idx rest st2).
Proof.
  revert idx st1 st2. induction rest as [|rid rest IH]; intros idx st1 st2 Hc Hr Hd.
  - cbn. exact Hr.
  - cbn [markers_loop].
    pose proof (marker_step_same ids1 ids2 ws rid_rows idx rid st1 st2 Hc Hr Hd) as Hs.
    destruct (marker_step ids1 ws rid_rows idx rid st1) as [a|e1],
             (marker_step ids2 ws rid_rows idx rid st2) as [b|e2];
      cbn in Hs; try contradiction; cbn [bind].
    + destruct Hs as [Hc' [Hr' Hd']]. now apply IH.
    + exact Hs.
Qed.

(** C9.  Two runs on the same sheet, whatever identifiers the clock and the
    random generator give to each, end alike: both raise the same exception, or
    both return, and the two sequences of Records are equal once the record
    identifier and the entity identifier of every line item are blanked. *)
Theorem extraction_is_repeatable (ids1 ids2 : nat -> string) (ws : worksheet) :
  erase_ids (parse_excel ids1 ws) = erase_ids (parse_excel ids2 ws).
Proof.
  unfold parse_excel.
  pose proof (markers_loop_same ids1 ids2 ws (recipe_id_rows ws) 0 (recipe_id_rows ws)
                initial_state initial_state eq_refl eq_refl eq_refl) as Hs.
  destruct (markers_loop ids1 ws (recipe_id_rows ws) 0 (recipe_id_rows ws) initial_state)
    as [a|e1],
    (markers_loop ids2 ws (recipe_id_rows ws) 0 (recipe_id_rows ws) initial_state)
    as [b|e2];
    cbn in Hs; try contradiction; cbn.
  - now rewrite Hs.
  - now rewrite Hs.
Qed.

(** ** Quantities of a line item *)

(** C10.  In every line item of every Record of the output, [quantity],
    [quantity_in_grams] and [yield_quantity_in_grams] hold one and the same
    value. *)
Theorem quantity_fields_agree ids ws out r ing
  (Hout : parse_excel ids ws = Ok out)
  (Hr : In r out)
  (Hi : In ing (rcp_ingredients r)) :
  ing_quantity_in_grams ing = ing_quantity ing
  /\ ing_yield_quantity_in_grams ing = ing_quantity ing.
Proof.
  destruct (parse_excel_items ids ws out r ing Hout Hr Hi) as [row [n Hrow]].
  apply ingredient_of_row_inv in Hrow. tauto.
Qed.

End Properties.

(** * Further properties of the extraction *)

Section Further.

Context {RT : Runtime}.

Local Open Scope list_scope.

(** ** Windows *)

Lemma range_down_In (a b r : Z) : In r (range_down a b) <-> b < r <= a.
Proof.
  unfold range_down. rewrite in_map_iff. split.
  - intros [i [<- Hi]]. apply in_seq in Hi. lia.
  - intros H. exists (Z.to_nat (a - r)). split; [lia | apply in_seq; lia].
Qed.

Lemma range_down_empty (a b : Z) : a <= b -> range_down a b = [].
Proof.
  intros H. unfold range_down. replace (Z.to_nat (a - b)) with O by lia. reflexivity.
Qed.

Lemma range_down_cons (a b : Z) : b < a -> range_down a b = a :: range_down (a - 1) b.
Proof.
  intros H. unfold range_down.
  replace (Z.to_nat (a - b)) with (S (Z.to_nat (a - 1 - b))) by lia.
  cbn [seq map]. f_equal; [lia|].
  rewrite <- seq_shift, map_map. apply map_ext. intros i. lia.
Qed.

Lemma range_sorted (a b : Z) : StronglySorted Z.lt (range a b).
Proof.
  remember (Z.to_nat (b - a)) as k eqn:Hk. revert a Hk.
  induction k as [|k IH]; intros a Hk.
  - rewrite range_empty by lia. constructor.
  - rewrite range_cons by lia. constructor.
    + apply IH. lia.
    + apply Forall_forall. intros r Hr. apply range_In in Hr. lia.
Qed.

Lemma filter_sorted (f : Z -> bool) (l : list Z) :
  StronglySorted Z.lt l -> StronglySorted Z.lt (filter f l).
Proof.
  induction 1 as [|x l Hs IH Hx]; cbn; [constructor|].
  destruct (f x); [|exact IH]. constructor; [exact IH|].
  rewrite Forall_forall in *. intros y Hy. apply filter_In in Hy. now apply Hx.
Qed.

(** X1.  The marker rows are found in strictly ascending row order; a row is a
    marker exactly when it lies between 1 and [max_row] and the text of its
    non-empty column B contains "Recipe ID". *)
Theorem recipe_id_rows_ascending (ws : worksheet) :
  StronglySorted Z.lt (recipe_id_rows ws)
  /\ forall row : Z,
      In row (recipe_id_rows ws) <->
      1 <= row <= max_row ws
      /\ truthy (cell ws row 2) = true
      /\ occurs_in "Recipe ID" (str (cell ws row 2)).
Proof.
  split.
  - apply filter_sorted, range_sorted.
  - intros row. unfold recipe_id_rows.
    rewrite filter_In, range_In, andb_true_iff, contains_occurs.
    split; intros [H1 [H2 H3]]; repeat split; auto; lia.
Qed.

Lemma find_name_loop_window ws (k : nat) (a : Z) name row :
  find_name_loop ws (range_down a (a - Z.of_nat k)) = Some (name, row) ->
  a - Z.of_nat k < row <= a
  /\ acceptable_name_row ws row = true
  /\ name = strip (str (cell ws row 1))
  /\ forall r : Z, row < r <= a -> acceptable_name_row ws r = false.
Proof.
  revert a. induction k as [|k IH]; intros a H.
  - rewrite range_down_empty in H by lia. discriminate.
  - rewrite range_down_cons in H by lia. cbn [find_name_loop] in H.
    replace (a - Z.of_nat (S k)) with (a - 1 - Z.of_nat k) in * by lia.
    assert (Hrec : find_name_loop ws (range_down (a - 1) (a - 1 - Z.of_nat k))
                   = Some (name, row) ->
                   acceptable_name_row ws a = false ->
                   a - 1 - Z.of_nat k < row <= a
                   /\ acceptable_name_row ws row = true
                   /\ name = strip (str (cell ws row 1))
                   /\ forall r : Z, row < r <= a -> acceptable_name_row ws r = false).
    { intros H' Ha. apply IH in H'. destruct H' as [Hw [Hacc [Hn Hnear]]].
      split; [lia|]. split; [exact Hacc|]. split; [exact Hn|].
      intros r Hr. destruct (Z.eq_dec r a) as [->|Hne]; [exact Ha|].
      apply Hnear. lia. }
    unfold acceptable_name_row in Hrec at 1.
    destruct (truthy (cell ws a 1) && negb (truthy (cell ws a 2))) eqn:E1;
      [|now apply Hrec].
    destruct (is_header (strip (str (cell ws a 1)))) eqn:E2;
      [now apply Hrec|].
    destruct (is_date_like (strip (str (cell ws a 1)))) eqn:E3;
      [apply Hrec; [exact H | now rewrite andb_false_r]|].
    inversion H; subst. split; [lia|]. split.
    + unfold acceptable_name_row. now rewrite E1, E2, E3.
    + split; [reflexivity|]. intros r Hr. lia.
Qed.

Lemma find_name_loop_none ws (rows : list Z) :
  find_name_loop ws rows = None <->
  forall r : Z, In r rows -> acceptable_name_row ws r = false.
Proof.
  induction rows as [|a rows IH]; cbn [find_name_loop].
  - split; [intros _ r [] | reflexivity].
  - unfold acceptable_name_row in *.
    destruct (truthy (cell ws a 1) && negb (truthy (cell ws a 2))) eqn:E1.
    + destruct (is_header (strip (str (cell ws a 1)))) eqn:E2.
      * rewrite IH. split.
        -- intros H r [<-|Hr]; [now rewrite E1, E2 | now apply H].
        -- intros H r Hr. apply H. now right.
      * destruct (is_date_like (strip (str (cell ws a 1)))) eqn:E3.
        -- rewrite IH. split.
           ++ intros H r [<-|Hr]; [now rewrite E1, E2, E3 | now apply H].
           ++ intros H r Hr. apply H. now right.
        -- split; [discriminate|].
           intros H. specialize (H a (or_introl eq_refl)).
           rewrite E1, E2, E3 in H. discriminate.
    + rewrite IH. split.
      * intros H r [<-|Hr]; [now rewrite E1 | now apply H].
      * intros H r Hr. apply H. now right.
Qed.

Lemma find_name_found ws rid_row name row :
  find_name ws rid_row = Some (name, row) ->
  1 <= row /\ rid_row - 4 <= row < rid_row
  /\ name = strip (str (cell ws row 1))
  /\ truthy (cell ws row 1) = true
  /\ truthy (cell ws row 2) = false
  /\ name <> ""
  /\ is_header name = false
  /\ is_date_like name = false
  /\ forall r : Z, row < r < rid_row -> acceptable_name_row ws r = false.
Proof.
  unfold find_name. intros H.
  set (a := rid_row - 1) in *. set (b := Z.max (rid_row - 5) 0) in *.
  destruct (Z_le_gt_dec a b) as [Hab|Hab].
  - rewrite range_down_empty in H by lia. discriminate.
  - replace b with (a - Z.of_nat (Z.to_nat (a - b))) in H by lia.
    apply find_name_loop_window in H. destruct H as [Hw [Hacc [Hn Hnear]]].
    unfold acceptable_name_row in Hacc. rewrite <- Hn in Hacc.
    apply andb_true_iff in Hacc. destruct Hacc as [Hacc Hd].
    apply andb_true_iff in Hacc. destruct Hacc as [Hacc Hh].
    apply andb_true_iff in Hacc. destruct Hacc as [Ha Hb].
    apply negb_true_iff in Hd, Hh, Hb.
    repeat split; try assumption; try lia.
    + intros ->. discriminate Hh.
    + intros r Hr. apply Hnear. lia.
Qed.

(** X2.  The name of a marker is read from the nearest acceptable row among
    the four rows above it, never from a row before the first: the row found
    has a value in column A and none in column B, the name is that value
    stripped, it is neither empty, nor a header, nor date-like, and no row
    between it and the marker is acceptable.  No name is found exactly when
    none of those rows is acceptable. *)
Theorem find_name_nearest (ws : worksheet) (rid_row : Z) :
  (find_name ws rid_row = None <->
   forall r : Z, Z.max (rid_row - 5) 0 < r < rid_row -> acceptable_name_row ws r = false)
  /\ forall (name : string) (row : Z),
      find_name ws rid_row = Some (name, row) ->
      1 <= row /\ rid_row - 4 <= row < rid_row
      /\ name = strip (str (cell ws row 1))
      /\ truthy (cell ws row 1) = true
      /\ truthy (cell ws row 2) = false
      /\ name <> ""
      /\ is_header name = false
      /\ is_date_like name = false
      /\ forall r : Z, row < r < rid_row -> acceptable_name_row ws r = false.
Proof.
  split.
  - unfold find_name. rewrite find_name_loop_none. split; intros H r Hr; apply H.
    + apply range_down_In. lia.
    + apply range_down_In in Hr. lia.
  - intros name row. apply find_name_found.
Qed.

Lemma find_category_loop_window ws rid_rows idx (k : nat) (a : Z) c :
  find_category_loop ws rid_rows idx (range_down a (a - Z.of_nat k)) = Some c ->
  exists r : Z,
    a - Z.of_nat k < r <= a
    /\ c = strip (str (cell ws r 1))
    /\ truthy (cell ws r 1) = true
    /\ truthy (cell ws r 2) = false
    /\ is_header c = false
    /\ is_date_like c = false
    /\ float_of_str c = None
    /\ (idx = O \/ nth (idx - 1) rid_rows 0 < r)
    /\ forall r' : Z, r < r' <= a -> cell ws r' 1 = VNone /\ cell ws r' 2 = VNone.
Proof.
  revert a. induction k as [|k IH]; intros a H.
  - rewrite range_down_empty in H by lia. discriminate.
  - rewrite range_down_cons in H by lia. cbn [find_category_loop] in H.
    replace (a - Z.of_nat (S k)) with (a - 1 - Z.of_nat k) in * by lia.
    destruct (is_none (cell ws a 1) && is_none (cell ws a 2)) eqn:En.
    + apply IH in H. destruct H as [r [Hw [Hc [Ha [Hb [Hh [Hd [Hf [Hp Hgap]]]]]]]]].
      exists r. repeat split; try assumption; try lia.
      * destruct (Z.eq_dec r' a) as [->|Hne]; [|apply Hgap; lia].
        apply andb_true_iff in En. destruct En as [E1 _].
        now destruct (cell ws a 1).
      * destruct (Z.eq_dec r' a) as [->|Hne]; [|apply Hgap; lia].
        apply andb_true_iff in En. destruct En as [_ E2].
        now destruct (cell ws a 2).
    + destruct (truthy (cell ws a 1) && negb (truthy (cell ws a 2))) eqn:E1;
        [|discriminate].
      destruct (is_header (strip (str (cell ws a 1)))) eqn:E2; [discriminate|].
      destruct (is_date_like (strip (str (cell ws a 1)))) eqn:E3; [discriminate|].
      destruct (float_of_str (strip (str (cell ws a 1)))) eqn:E4; [discriminate|].
      apply andb_true_iff in E1. destruct E1 as [Ha Hb]. apply negb_true_iff in Hb.
      assert (Hp : c = strip (str (cell ws a 1))
                   /\ (idx = O \/ nth (idx - 1) rid_rows 0 < a)).
      { destruct (0 <? idx)%nat eqn:Ei.
        - destruct (nth (idx - 1) rid_rows 0 <? a)%Z eqn:El; [|discriminate].
          inversion H. split; [reflexivity|]. right. now apply Z.ltb_lt.
        - inversion H. split; [reflexivity|]. left.
          apply Nat.ltb_ge in Ei. lia. }
      destruct Hp as [-> Hp].
      exists a. repeat split; try assumption; try lia.
Qed.

(** X3.  A category is taken for a marker only from a row among the four rows
    above the name row, never from a row before the first: every row between
    the two is entirely empty in columns A and B, the row has a value in
    column A and none in column B, the category is that value stripped, it is
    neither a header nor date-like nor text that [float] reads as a number,
    and, unless the marker is the first one, the row lies below the previous
    marker. *)
Theorem find_category_source ws rid_rows idx recipe_name_row c
  (Hcat : find_category ws rid_rows idx recipe_name_row = Some c) :
  exists r : Z,
    1 <= r /\ recipe_name_row - 4 <= r < recipe_name_row
    /\ c = strip (str (cell ws r 1))
    /\ truthy (cell ws r 1) = true
    /\ truthy (cell ws r 2) = false
    /\ is_header c = false
    /\ is_date_like c = false
    /\ float_of_str c = None
    /\ (idx = O \/ nth (idx - 1) rid_rows 0 < r)
    /\ forall r' : Z,
        r < r' < recipe_name_row -> cell ws r' 1 = VNone /\ cell ws r' 2 = VNone.
Proof.
  unfold find_category in Hcat.
  set (a := recipe_name_row - 1) in *. set (b := Z.max (recipe_name_row - 5) 0) in *.
  destruct (Z_le_gt_dec a b) as [Hab|Hab].
  - rewrite range_down_empty in Hcat by lia. discriminate.
  - replace b with (a - Z.of_nat (Z.to_nat (a - b))) in Hcat by lia.
    apply find_category_loop_window in Hcat.
    destruct Hcat as [r [Hw [Hc [Ha [Hb [Hh [Hd [Hf [Hp Hgap]]]]]]]]].
    exists r. repeat split; try assumption; try lia.
    + apply (Hgap r'). lia.
    + apply (Hgap r'). lia.
Qed.

(** ** The start of the ingredient rows *)

Lemma ingredients_start_loop_window ws (k : nat) (a : Z) s :
  ingredients_start_loop ws (range a (a + Z.of_nat k)) = Some s ->
  exists label : Z,
    a <= label < a + Z.of_nat k
    /\ is_ingredients_label (cell ws label 1) = true
    /\ (forall r : Z, a <= r < label -> is_ingredients_label (cell ws r 1) = false)
    /\ s = (if truthy (cell ws (label + 1) 1)
               && contains "S.No" (str (cell ws (label + 1) 1))
            then label + 2 else label + 1).
Proof.
  revert a. induction k as [|k IH]; intros a H.
  - rewrite range_empty in H by lia. discriminate.
  - rewrite range_cons in H by lia. cbn [ingredients_start_loop] in H.
    replace (a + Z.of_nat (S k)) with (a + 1 + Z.of_nat k) in * by lia.
    destruct (is_ingredients_label (cell ws a 1)) eqn:E.
    + exists a. split; [lia|]. split; [exact E|]. split; [intros r Hr; lia|].
      destruct (truthy (cell ws (a + 1) 1) && contains "S.No" (str (cell ws (a + 1) 1)));
        inversion H; lia.
    + apply IH in H. destruct H as [label [Hw [Hl [Hfirst Hs]]]].
      exists label. split; [lia|]. split; [exact Hl|]. split; [|exact Hs].
      intros r Hr. destruct (Z.eq_dec r a) as [->|Hne]; [exact E|]. apply Hfirst. lia.
Qed.

(** X4.  The ingredient rows start right below the first "Ingredients" label
    found in column A of the twelve rows from the marker on, no label below
    [max_row] being seen; one more row is skipped when column A of the row
    below the label contains "S.No". *)
Theorem ingredients_start_below_first_label ws rid_row max_row s
  (Hstart : find_ingredients_start ws rid_row max_row = Some s) :
  exists label : Z,
    rid_row <= label < rid_row + 12
    /\ label <= max_row
    /\ is_ingredients_label (cell ws label 1) = true
    /\ (forall r : Z, rid_row <= r < label -> is_ingredients_label (cell ws r 1) = false)
    /\ s = (if truthy (cell ws (label + 1) 1)
               && contains "S.No" (str (cell ws (label + 1) 1))
            then label + 2 else label + 1).
Proof.
  unfold find_ingredients_start in Hstart.
  set (b := Z.min (rid_row + 12) (max_row + 1)) in *.
  destruct (Z_le_gt_dec b rid_row) as [Hb|Hb].
  - rewrite range_empty in Hstart by lia. discriminate.
  - replace b with (rid_row + Z.of_nat (Z.to_nat (b - rid_row))) in Hstart by lia.
    apply ingredients_start_loop_window in Hstart.
    destruct Hstart as [label [Hw [Hl [Hfirst Hs]]]].
    exists label. repeat split; try assumption; lia.
Qed.

(** ** Metadata *)

Lemma read_labelled_ext ws ws' row m :
  (forall c : Z, cell ws' row c = cell ws row c) ->
  read_labelled ws' row m = read_labelled ws row m.
Proof.
  intros H. unfold read_labelled. now rewrite !H.
Qed.

Lemma read_pair_ext ws ws' row m col :
  (forall c : Z, cell ws' row c = cell ws row c) ->
  read_pair ws' row m col = read_pair ws row m col.
Proof.
  intros H. unfold read_pair. now rewrite !H.
Qed.

Lemma metadata_loop_ext ws ws' rows m :
  (forall r c : Z, In r rows -> cell ws' r c = cell ws r c) ->
  metadata_loop ws' rows m = metadata_loop ws rows m.
Proof.
  revert m. induction rows as [|row rest IH]; intros m H; cbn [metadata_loop];
    [reflexivity|].
  assert (Hrow : forall c : Z, cell ws' row c = cell ws row c)
    by (intros c; apply H; now left).
  cbn [fold_left]. rewrite !(read_pair_ext ws ws'), (read_labelled_ext ws ws'), Hrow
    by exact Hrow.
  destruct (is_ingredients_label (cell ws row 1)); [reflexivity|].
  apply IH. intros r c Hr. apply H. now right.
Qed.

Lemma metadata_loop_stops ws pre label post m :
  is_ingredients_label (cell ws label 1) = true ->
  metadata_loop ws (pre ++ label :: post) m = metadata_loop ws (pre ++ [label]) m.
Proof.
  intros Hl. revert m. induction pre as [|row pre IH]; intros m; cbn [app metadata_loop].
  - now rewrite Hl.
  - destruct (is_ingredients_label (cell ws row 1)); [reflexivity | apply IH].
Qed.

(** X5.  The metadata of a marker depend on nothing but the rows from the
    marker to seven rows below it, and on none of the rows below an
    "Ingredients" label standing in column A of these rows: two sheets that
    agree on the rows read give the same metadata. *)
Theorem metadata_reads_window_only ws ws' rid_row max_row :
  ((forall r c : Z, rid_row <= r < rid_row + 8 -> cell ws' r c = cell ws r c) ->
   parse_metadata ws' rid_row max_row = parse_metadata ws rid_row max_row)
  /\ (forall label : Z,
        rid_row <= label <= max_row ->
        is_ingredients_label (cell ws label 1) = true ->
        (forall r c : Z, rid_row <= r <= label -> cell ws' r c = cell ws r c) ->
        parse_metadata ws' rid_row max_row = parse_metadata ws rid_row max_row).
Proof.
  unfold parse_metadata. split.
  - intros H. apply metadata_loop_ext. intros r c Hr.
    apply range_In in Hr. apply H. lia.
  - intros label Hw Hl H.
    set (b := Z.min (rid_row + 8) (max_row + 1)).
    destruct (Z_lt_ge_dec label b) as [Hin|Hout].
    + rewrite (range_split rid_row label b), (range_cons label b) by lia.
      assert (Hl' : is_ingredients_label (cell ws' label 1) = true)
        by (rewrite H by lia; exact Hl).
      rewrite (metadata_loop_stops ws' _ _ _ _ Hl'), (metadata_loop_stops ws _ _ _ _ Hl).
      apply metadata_loop_ext. intros r c Hr. apply H.
      apply in_app_or in Hr. destruct Hr as [Hr|[<-|[]]]; [|lia].
      apply range_In in Hr. lia.
    + apply metadata_loop_ext. intros r c Hr.
      apply range_In in Hr. apply H. lia.
Qed.

(** ** Stripped text *)

Lemma rstrip_idempotent (s : string) : rstrip (rstrip s) = rstrip s.
Proof.
  induction s as [|c t IH]; [reflexivity|].
  cbn [rstrip]. destruct (rstrip t) as [|d u] eqn:E.
  - destruct (is_space c) eqn:Ec; [reflexivity|]. cbn [rstrip]. now rewrite Ec.
  - cbn [rstrip]. cbn [rstrip] in IH. rewrite IH. reflexivity.
Qed.

Lemma rstrip_head (c : ascii) (t : string) :
  is_space c = false -> rstrip (String c t) = String c (rstrip t).
Proof.
  intros Hc. cbn [rstrip]. destruct (rstrip t); [now rewrite Hc | reflexivity].
Qed.

Lemma lstrip_head (s : string) :
  lstrip s = EmptyString
  \/ exists (c : ascii) (t : string), lstrip s = String c t /\ is_space c = false.
Proof.
  induction s as [|c t IH]; [now left|].
  cbn [lstrip]. destruct (is_space c) eqn:Ec; [exact IH|].
  right. now exists c, t.
Qed.

Lemma strip_idempotent (s : string) : strip (strip s) = strip s.
Proof.
  unfold strip. destruct (lstrip_head s) as [->|[c [t [-> Hc]]]]; [reflexivity|].
  rewrite (rstrip_head c t Hc). cbn [lstrip]. rewrite Hc.
  rewrite (rstrip_head c _ Hc). now rewrite rstrip_idempotent.
Qed.

(** ** The Records of the output and the markers they come from *)

Lemma parse_recipe_fields ids ws name rid_row max_row category n r n' :
  parse_recipe ids ws name rid_row max_row category n = Ok (Some r, n') ->
  let m := parse_metadata ws rid_row max_row in
  rcp_name r = name
  /\ rcp_source_recipe_id r = recipe_id_source m
  /\ rcp_description r = str_or_empty (description m)
  /\ rcp_preparation_time_minutes r = prep_time m
  /\ rcp_calories r = num_or (total_calories m) 0
  /\ rcp_serving_size_grams r = num_or (per_serving_weight m) 100
  /\ rcp_total_yield_grams r
     = (let t := num_or (total_yield m) (sum_quantity_in_grams (rcp_ingredients r)) in
        if Qeq_bool t 0 then 100%Q else t).
Proof.
  intros H m. unfold parse_recipe in H. fold m in H.
  destruct (find_ingredients_start ws rid_row max_row) as [start|]; [|discriminate].
  destruct (ingredients_loop ids ws (range start (max_row + 1)) [] n)
    as [[items n1]|e]; [|discriminate].
  cbn in H. inversion H; subst. cbn. repeat split.
Qed.

Lemma Forall2_In_right {A B : Type} (R : A -> B -> Prop) (l1 : list A) (l2 : list B) b :
  Forall2 R l1 l2 -> In b l2 -> exists a : A, In a l1 /\ R a b.
Proof.
  induction 1 as [|x y l1 l2 Hxy _ IH]; intros Hin; [destruct Hin|].
  destruct Hin as [<-|Hin].
  - exists x. split; [now left | exact Hxy].
  - destruct (IH Hin) as [a [Ha HR]]. exists a. split; [now right | exact HR].
Qed.

Lemma markers_loop_provenance ids ws rid_rows idx rest st st' :
  markers_loop ids ws rid_rows idx rest st = Ok st' ->
  exists more : list recipe,
    recipes st' = recipes st ++ more
    /\ Forall2 (fun rid r =>
                  exists (name_row : Z) (category : option string) (n n' : nat),
                    find_name ws rid = Some (rcp_name r, name_row)
                    /\ parse_recipe ids ws (rcp_name r) rid (max_row ws) category n
                       = Ok (Some r, n'))
               (filter (yields_record ws) rest) more.
Proof.
  revert idx st. induction rest as [|rid rest IH]; intros idx st H; cbn in H.
  - inversion H; subst. exists []. rewrite app_nil_r. split; [reflexivity | constructor].
  - destruct (marker_step ids ws rid_rows idx rid st) as [st1|e] eqn:Es; [|discriminate].
    cbn [bind] in H. apply IH in H. destruct H as [more [Hm HF]].
    apply marker_step_cases in Es. cbn [filter]. unfold yields_record at 1.
    destruct Es as [[Hmiss ->]|[name [row [parsed [Hf [Hmiss [Hc [Hp Hr]]]]]]]].
    + rewrite Hmiss. cbn. exists more. split; assumption.
    + rewrite Hmiss. cbn [negb andb].
      destruct (find_ingredients_start ws rid (max_row ws)) as [start|] eqn:Est.
      * destruct (parse_recipe_some _ _ _ _ _ _ _ _ _ Hp start Est)
          as [r [n1 [-> [_ [Hn _]]]]].
        exists (r :: more). split.
        -- rewrite Hm, Hr, <- app_assoc. reflexivity.
        -- constructor; [|exact HF].
           exists row, (current_category st1), (drawn st), (drawn st1).
           rewrite Hn. split; [exact Hf | exact Hp].
      * rewrite parse_recipe_none in Hp by exact Est. inversion Hp; subst parsed.
        exists more. split; [now rewrite Hm, Hr | exact HF].
Qed.

(** X6.  The output follows the sheet: it holds exactly one Record for each
    marker that resolves a name and finds its "Ingredients" label, in the
    order of the marker rows, and the Record of a marker carries the name
    found above that marker and the metadata read below it. *)
Theorem output_follows_markers ids ws out
  (Hout : parse_excel ids ws = Ok out) :
  Forall2 (fun rid r =>
             let m := parse_metadata ws rid (max_row ws) in
             (exists name_row : Z, find_name ws rid = Some (rcp_name r, name_row))
             /\ rcp_source_recipe_id r = recipe_id_source m
             /\ rcp_description r = str_or_empty (description m)
             /\ rcp_preparation_time_minutes r = prep_time m
             /\ rcp_calories r = num_or (total_calories m) 0)
          (filter (yields_record ws) (recipe_id_rows ws)) out.
Proof.
  unfold parse_excel in Hout.
  destruct (markers_loop ids ws (recipe_id_rows ws) 0 (recipe_id_rows ws) initial_state)
    as [st|e] eqn:El; [|discriminate].
  cbn in Hout. inversion Hout; subst out. clear Hout.
  apply markers_loop_provenance in El. destruct El as [more [Hm HF]].
  cbn in Hm. rewrite Hm. clear Hm.
  induction HF as [|rid r rids rs Hr _ IH]; constructor; [|exact IH].
  destruct Hr as [row [category [n [n' [Hf Hp]]]]].
  apply parse_recipe_fields in Hp. cbn zeta in *.
  destruct Hp as [_ [H1 [H2 [H3 [H4 _]]]]].
  split; [now exists row|]. auto.
Qed.

(** X7.  Every Record of the output has a name that is not empty, carries no
    white space at either end, is none of the header texts and is not
    date-like. *)
Theorem record_names_are_clean ids ws out r
  (Hout : parse_excel ids ws = Ok out)
  (Hr : In r out) :
  rcp_name r <> ""
  /\ strip (rcp_name r) = rcp_name r
  /\ is_header (rcp_name r) = false
  /\ is_date_like (rcp_name r) = false.
Proof.
  unfold parse_excel in Hout.
  destruct (markers_loop ids ws (recipe_id_rows ws) 0 (recipe_id_rows ws) initial_state)
    as [st|e] eqn:El; [|discriminate].
  cbn in Hout. inversion Hout; subst out. clear Hout.
  apply markers_loop_provenance in El. destruct El as [more [Hm HF]].
  cbn in Hm. rewrite Hm in Hr.
  destruct (Forall2_In_right _ _ _ _ HF Hr) as [rid [_ [row [_ [_ [_ [Hf _]]]]]]].
  apply find_name_found in Hf.
  destruct Hf as [_ [_ [Hn [_ [_ [Hne [Hh [Hd _]]]]]]]].
  split; [exact Hne|]. split; [|split; assumption].
  rewrite Hn. apply strip_idempotent.
Qed.

(** ** Totals *)


(** ** Identifiers *)

Lemma ingredient_of_row_id ids ws row n ing n' :
  ingredient_of_row ids ws row n = Ok (ing, n') ->
  n' = S n /\ ing_entity_ingredient_id ing = ("imported_" ++ "recipe_" ++ ids n)%string.
Proof.
  unfold ingredient_of_row.
  destruct (float_or (cell ws row 9) 0) as [c|e]; [|discriminate].
  destruct (float_or (cell ws row 7) 100) as [y|e]; [|discriminate].
  cbn. intros H. inversion H; subst. cbn. auto.
Qed.

Lemma ingredients_loop_ids ids ws rows acc n res n' :
  ingredients_loop ids ws rows acc n = Ok (res, n') ->
  exists items : list ingredient,
    res = acc ++ items
    /\ n' = (n + List.length items)%nat
    /\ Forall2 (fun k ing => ing_entity_ingredient_id ing = ("imported_" ++ "recipe_" ++ ids k)%string)
               (seq n (List.length items)) items.
Proof.
  revert acc n. induction rows as [|row rest IH]; intros acc n H.
  - cbn in H. inversion H; subst. exists []. rewrite app_nil_r. cbn.
    repeat split; [lia | constructor].
  - cbn [ingredients_loop] in H.
    assert (Hstop : Ok (acc, n) = Ok (res, n') ->
                    exists items : list ingredient,
                      res = acc ++ items
                      /\ n' = (n + List.length items)%nat
                      /\ Forall2 (fun k ing => ing_entity_ingredient_id ing
                                               = ("imported_" ++ "recipe_" ++ ids k)%string)
                                 (seq n (List.length items)) items).
    { intros E. inversion E; subst. exists []. rewrite app_nil_r. cbn.
      repeat split; [lia | constructor]. }
    destruct (negb (is_none (cell ws row 1))).
    + destruct (ordinal (cell ws row 1)) as [k|e]; [|now apply Hstop].
      destruct (ingredient_of_row ids ws row n) as [[ing n1]|e] eqn:Ei; [|discriminate].
      cbn [bind] in H. apply IH in H. destruct H as [items [-> [-> HF]]].
      apply ingredient_of_row_id in Ei. destruct Ei as [-> Hid].
      exists (ing :: items). rewrite <- app_assoc. cbn [List.length seq app].
      repeat split; [lia|]. constructor; assumption.
    + destruct (negb (truthy (cell ws row 2)) && negb (truthy (cell ws row 3)));
        [now apply Hstop | now apply IH in H].
Qed.

Lemma parse_recipe_ids ids ws name rid_row max_row category n parsed n' :
  parse_recipe ids ws name rid_row max_row category n = Ok (parsed, n') ->
  n' = (n + List.length (id_texts (match parsed with Some r => [r] | None => [] end)))%nat
  /\ Forall2 (fun k s => s = ("recipe_" ++ ids k)%string \/ s = ("imported_" ++ "recipe_" ++ ids k)%string)
             (seq n (List.length (id_texts (match parsed with Some r => [r] | None => [] end))))
             (id_texts (match parsed with Some r => [r] | None => [] end)).
Proof.
  unfold parse_recipe.
  destruct (find_ingredients_start ws rid_row max_row) as [start|].
  - destruct (ingredients_loop ids ws (range start (max_row + 1)) [] n)
      as [[items n1]|e] eqn:El; [|discriminate].
    cbn [bind generate_recipe_id]. intros H. inversion H; subst. clear H.
    apply ingredients_loop_ids in El. destruct El as [items' [Hi [-> HF]]].
    cbn [app] in Hi. subst items'.
    cbn [id_texts flat_map rcp_ingredients rcp_id]. rewrite app_nil_r.
    rewrite length_app, length_map. cbn [List.length].
    split; [lia|]. rewrite seq_app. apply Forall2_app.
    + clear - HF. revert HF. generalize (seq n (List.length items)).
      induction items as [|i items IH]; intros l HF; inversion HF; subst; cbn [map];
        constructor; auto.
    + cbn [seq]. constructor; [now left | constructor].
  - intros H. inversion H; subst. cbn. split; [lia | constructor].
Qed.

Lemma id_texts_app (l1 l2 : list recipe) : id_texts (l1 ++ l2) = id_texts l1 ++ id_texts l2.
Proof.
  unfold id_texts. apply flat_map_app.
Qed.

Lemma markers_loop_ids ids ws rid_rows idx rest st st' :
  markers_loop ids ws rid_rows idx rest st = Ok st' ->
  exists more : list recipe,
    recipes st' = recipes st ++ more
    /\ drawn st' = (drawn st + List.length (id_texts more))%nat
    /\ Forall2 (fun k s => s = ("recipe_" ++ ids k)%string \/ s = ("imported_" ++ "recipe_" ++ ids k)%string)
               (seq (drawn st) (List.length (id_texts more))) (id_texts more).
Proof.
  revert idx st. induction rest as [|rid rest IH]; intros idx st H; cbn in H.
  - inversion H; subst. exists []. rewrite app_nil_r. cbn.
    repeat split; [lia | constructor].
  - destruct (marker_step ids ws rid_rows idx rid st) as [st1|e] eqn:Es; [|discriminate].
    cbn [bind] in H. apply IH in H. destruct H as [more [Hm [Hd HF]]].
    apply marker_step_cases in Es.
    destruct Es as [[_ ->]|[name [row [parsed [_ [_ [_ [Hp Hr]]]]]]]].
    + exists more. repeat split; assumption.
    + apply parse_recipe_ids in Hp. destruct Hp as [Hn HF1].
      exists ((match parsed with Some r => [r] | None => [] end) ++ more).
      split; [|split].
      * rewrite Hm, Hr. destruct parsed; [now rewrite <- app_assoc | reflexivity].
      * rewrite Hd, Hn, id_texts_app, length_app. lia.
      * rewrite id_texts_app, length_app, seq_app. apply Forall2_app; [exact HF1|].
        rewrite <- Hn. exact HF.
Qed.

Lemma Forall2_NoDup {A B : Type} (R : A -> B -> Prop) (l1 : list A) (l2 : list B) :
  (forall a a' b, R a b -> R a' b -> a = a') ->
  Forall2 R l1 l2 -> NoDup l1 -> NoDup l2.
Proof.
  intros Hinj HF. induction HF as [|x y l1 l2 Hxy HF IH]; intros Hnd; [constructor|].
  inversion Hnd; subst. constructor; [|now apply IH].
  intros Hin. destruct (Forall2_In_right _ _ _ _ HF Hin) as [a [Ha HR]].
  rewrite (Hinj x a y Hxy HR) in *. contradiction.
Qed.

(** X9.  The identifiers of the output, read in the order line items first and
    Record last, Record after Record, are the texts of the successive calls of
    [generate_recipe_id], call 0 first, none skipped and none used twice.  So
    when the generator never repeats itself, no two identifiers of the output
    are equal. *)
Theorem identifiers_are_fresh ids ws out
  (Hout : parse_excel ids ws = Ok out) :
  Forall2 (fun k s => s = ("recipe_" ++ ids k)%string \/ s = ("imported_" ++ "recipe_" ++ ids k)%string)
          (seq 0 (List.length (id_texts out))) (id_texts out)
  /\ ((forall i j : nat, ids i = ids j -> i = j) -> NoDup (id_texts out)).
Proof.
  unfold parse_excel in Hout.
  destruct (markers_loop ids ws (recipe_id_rows ws) 0 (recipe_id_rows ws) initial_state)
    as [st|e] eqn:El; [|discriminate].
  cbn in Hout. inversion Hout; subst out. clear Hout.
  apply markers_loop_ids in El. destruct El as [more [Hm [_ HF]]].
  cbn [initial_state recipes drawn app] in Hm, HF. rewrite Hm. split; [exact HF|].
  intros Hinj. refine (Forall2_NoDup _ _ _ _ HF (seq_NoDup _ _)).
  intros a a' b Ha Ha'. cbn beta in Ha, Ha'.
  destruct Ha as [Ha | Ha], Ha' as [E | E]; rewrite Ha in E; cbn in E.
  - apply Hinj. now inversion E.
  - discriminate E.
  - discriminate E.
  - apply Hinj. now inversion E.
Qed.

(** ** Exceptions *)

Lemma float_or_raise (v : cell_value) (d : Q) (e : exn) :
  float_or v d = Raise e -> e = ValueError /\ raises_on v = true.
Proof.
  unfold float_or, raises_on. destruct v as [|s|q]; cbn.
  - discriminate.
  - destruct (negb (s =? "")%string); [|discriminate].
    destruct (float_of_str s); [discriminate|]. intros H. inversion H. auto.
  - destruct (negb (Qeq_bool q 0)); discriminate.
Qed.

Lemma ingredient_of_row_raise ids ws row n e :
  ingredient_of_row ids ws row n = Raise e ->
  e = ValueError
  /\ (raises_on (cell ws row 9) = true \/ raises_on (cell ws row 7) = true).
Proof.
  unfold ingredient_of_row.
  destruct (float_or (cell ws row 9) 0) as [c|e1] eqn:Ec.
  - destruct (float_or (cell ws row 7) 100) as [y|e2] eqn:Ey; [discriminate|].
    cbn. intros H. inversion H; subst. apply float_or_raise in Ey. tauto.
  - cbn. intros H. inversion H; subst. apply float_or_raise in Ec. tauto.
Qed.

Lemma ingredients_loop_raise ids ws rows acc n e :
  ingredients_loop ids ws rows acc n = Raise e ->
  e = ValueError
  /\ exists row : Z,
      In row rows /\ cell ws row 1 <> VNone
      /\ (raises_on (cell ws row 9) = true \/ raises_on (cell ws row 7) = true).
Proof.
  revert acc n. induction rows as [|row rest IH]; intros acc n H; [discriminate|].
  cbn [ingredients_loop] in H.
  assert (Hrest : forall acc' n', ingredients_loop ids ws rest acc' n' = Raise e ->
                  e = ValueError
                  /\ exists row' : Z,
                      In row' (row :: rest) /\ cell ws row' 1 <> VNone
                      /\ (raises_on (cell ws row' 9) = true
                          \/ raises_on (cell ws row' 7) = true)).
  { intros acc' n' H'. apply IH in H'. destruct H' as [He [row' [Hin Hrow]]].
    split; [exact He|]. exists row'. split; [now right | exact Hrow]. }
  destruct (cell ws row 1) as [|s|q] eqn:Ea; cbn [is_none negb] in H.
  - destruct (negb (truthy (cell ws row 2)) && negb (truthy (cell ws row 3)));
      [discriminate | now apply Hrest in H].
  - destruct (ordinal (VStr s)); [|discriminate].
    destruct (ingredient_of_row ids ws row n) as [[ing n1]|e1] eqn:Ei; cbn [bind] in H.
    + now apply Hrest in H.
    + inversion H; subst. apply ingredient_of_row_raise in Ei. destruct Ei as [He Hc].
      split; [exact He|]. exists row. split; [now left|]. split; [congruence | exact Hc].
  - destruct (ordinal (VNum q)); [|discriminate].
    destruct (ingredient_of_row ids ws row n) as [[ing n1]|e1] eqn:Ei; cbn [bind] in H.
    + now apply Hrest in H.
    + inversion H; subst. apply ingredient_of_row_raise in Ei. destruct Ei as [He Hc].
      split; [exact He|]. exists row. split; [now left|]. split; [congruence | exact Hc].
Qed.

Lemma markers_loop_raise ids ws rid_rows idx rest st e :
  markers_loop ids ws rid_rows idx rest st = Raise e ->
  e = ValueError
  /\ exists row : Z,
      row <= max_row ws /\ cell ws row 1 <> VNone
      /\ (raises_on (cell ws row 9) = true \/ raises_on (cell ws row 7) = true).
Proof.
  revert idx st. induction rest as [|rid rest IH]; intros idx st H; [discriminate|].
  cbn [markers_loop] in H.
  destruct (marker_step ids ws rid_rows idx rid st) as [st1|e1] eqn:Es; cbn [bind] in H.
  - now apply IH in H.
  - inversion H; subst. clear H. unfold marker_step in Es.
    destruct (name_missing (find_name ws rid)); [discriminate|].
    destruct (find_name ws rid) as [[name row]|]; [|discriminate].
    destruct (parse_recipe _ _ _ _ _ _ _) as [[parsed n]|e2] eqn:Ep; [discriminate|].
    cbn [bind] in Es. inversion Es; subst. clear Es.
    unfold parse_recipe in Ep.
    destruct (find_ingredients_start ws rid (max_row ws)) as [start|]; [|discriminate].
    destruct (ingredients_loop ids ws (range start (max_row ws + 1)) [] (drawn st))
      as [[items n1]|e3] eqn:El; [discriminate|].
    cbn [bind] in Ep. inversion Ep; subst.
    apply ingredients_loop_raise in El. destruct El as [He [r [Hin Hr]]].
    split; [exact He|]. exists r. split; [|exact Hr].
    apply range_In in Hin. lia.
Qed.

(** X10.  Of the two exceptions that the handlers of the script name,
    [TypeError] never escapes the extraction, and [ValueError] escapes only
    because a row of the sheet with a value in column A holds, as cost
    (column I) or as yield percentage (column G), a non-empty text that
    [float] does not read. *)
Theorem extraction_raises_only_on_bad_numbers ids ws :
  (parse_excel ids ws = Raise ValueError ->
   exists row : Z,
     row <= max_row ws /\ cell ws row 1 <> VNone
     /\ (raises_on (cell ws row 9) = true \/ raises_on (cell ws row 7) = true))
  /\ parse_excel ids ws <> Raise TypeError
  /\ (forall v : cell_value,
        raises_on v = true <->
        exists s : string, v = VStr s /\ s <> "" /\ float_of_str s = None).
Proof.
  assert (Hraise : forall e : exn,
             parse_excel ids ws = Raise e ->
             e = ValueError
             /\ exists row : Z,
                 row <= max_row ws /\ cell ws row 1 <> VNone
                 /\ (raises_on (cell ws row 9) = true
                     \/ raises_on (cell ws row 7) = true)).
  { intros e H. unfold parse_excel in H.
    destruct (markers_loop ids ws (recipe_id_rows ws) 0 (recipe_id_rows ws) initial_state)
      as [st|e1] eqn:El; [discriminate|].
    cbn in H. inversion H; subst. now apply markers_loop_raise in El. }
  split; [|split].
  - intros H. exact (proj2 (Hraise ValueError H)).
  - intros H. destruct (Hraise TypeError H) as [He _]. discriminate He.
  - intros v. unfold raises_on. destruct v as [|s|q]; cbn.
    + split; [discriminate | intros [s [H _]]; discriminate].
    + destruct (String.eqb_spec s ""); cbn.
      * split; [discriminate | intros [s' [H [Hne _]]]; congruence].
      * destruct (float_of_str s) eqn:Ef.
        -- split; [discriminate | intros [s' [H [_ Hf]]]; congruence].
        -- split; [intros _; now exists s | reflexivity].
    + rewrite andb_false_r. split; [discriminate | intros [s [H _]]; discriminate].
Qed.

(** ** Records before the first category *)

(** X19.  As long as no marker has resolved a category, the Records carry the
    empty category: when neither a marker nor any marker before it resolves a
    category of its own, the Record of that marker has category "". *)
Theorem category_empty_until_resolved ids ws before m after st st' r
  (Hrows : recipe_id_rows ws = before ++ m :: after)
  (Hnone : forall (k : nat) (rid : Z),
      nth_error (before ++ [m]) k = Some rid ->
      own_category ws (recipe_id_rows ws) k rid = None)
  (Hrun : markers_loop ids ws (recipe_id_rows ws) 0 before initial_state = Ok st)
  (Hstep : marker_step ids ws (recipe_id_rows ws) (List.length before) m st = Ok st')
  (Hrec : recipes st' = recipes st ++ [r]) :
  current_category st = None /\ rcp_category r = "".
Proof.
  assert (Hcat : current_category st = None).
  { apply markers_loop_category_kept in Hrun; [exact Hrun|].
    intros k rid Hk. cbn [Nat.add]. apply Hnone.
    rewrite nth_error_app1; [exact Hk|]. apply nth_error_Some. congruence. }
  split; [exact Hcat|].
  pose proof (marker_step_category _ _ _ _ _ _ _ Hstep) as Hc.
  rewrite (Hnone (List.length before) m), Hcat in Hc
    by (rewrite nth_error_app2 by lia; now rewrite Nat.sub_diag).
  apply marker_step_cases in Hstep.
  destruct Hstep as [[_ ->]|[name [row [parsed [_ [_ [_ [Hp Hr]]]]]]]].
  - apply (f_equal (@List.length recipe)) in Hrec.
    rewrite length_app in Hrec. cbn in Hrec. lia.
  - destruct (find_ingredients_start ws m (max_row ws)) as [start|] eqn:Es.
    + destruct (parse_recipe_some _ _ _ _ _ _ _ _ _ Hp start Es)
        as [r' [n1 [-> [_ [_ [Hcr _]]]]]].
      rewrite Hr in Hrec. apply app_inj_tail in Hrec. destruct Hrec as [_ ->].
      rewrite Hcr, Hc. reflexivity.
    + rewrite parse_recipe_none in Hp by exact Es. inversion Hp; subst parsed.
      rewrite Hr in Hrec. apply (f_equal (@List.length recipe)) in Hrec.
      rewrite length_app in Hrec. cbn in Hrec. lia.
Qed.

End Further.


(** * Properties of the upload *)

Section Upload.

Local Open Scope list_scope.

Variable server : list request -> request -> reply.

(** ** Ranges with a step, slices *)

Lemma range_step_empty (start stop step : Z) :
  0 < step -> stop <= start -> range_step start stop step = [].
Proof.
  intros Hs H. unfold range_step.
  destruct (Z.ltb_spec step 0) as [Hn|_]; [reflexivity|].
  assert (Hq : (stop - start + step - 1) / step <= 0).
  { apply Z.lt_succ_r. apply Z.div_lt_upper_bound; lia. }
  replace (Z.to_nat ((stop - start + step - 1) / step)) with O by lia. reflexivity.
Qed.

Lemma range_step_cons (start stop step : Z) :
  0 < step -> start < stop ->
  range_step start stop step = start :: range_step (start + step) stop step.
Proof.
  intros Hs H. unfold range_step.
  destruct (Z.ltb_spec step 0) as [Hn|_]; [lia|].
  replace (stop - start + step - 1) with ((stop - (start + step) + step - 1) + 1 * step)
    by lia.
  rewrite Z.div_add by lia.
  assert (Hq : 0 <= (stop - (start + step) + step - 1) / step)
    by (apply Z.div_pos; lia).
  replace (Z.to_nat ((stop - (start + step) + step - 1) / step + 1))
    with (S (Z.to_nat ((stop - (start + step) + step - 1) / step))) by lia.
  cbn [seq map]. f_equal; [lia|].
  rewrite <- seq_shift, map_map. apply map_ext. intros k. lia.
Qed.

Lemma firstn_add {A : Type} (a b : nat) (l : list A) :
  firstn (a + b) l = firstn a l ++ firstn b (skipn a l).
Proof.
  revert l. induction a as [|a IH]; intros l; [reflexivity|].
  destruct l as [|x l]; cbn.
  - now rewrite firstn_nil.
  - now rewrite IH.
Qed.

Lemma firstn_slice {A : Type} (l : list A) (i batch_size : Z) :
  0 <= i <= Z.of_nat (List.length l) -> 0 < batch_size ->
  firstn (Z.to_nat (Z.min (i + batch_size) (Z.of_nat (List.length l)))) l
  = firstn (Z.to_nat i) l ++ slice l i (i + batch_size).
Proof.
  intros Hi Hb. unfold slice.
  replace (Z.to_nat (i + batch_size - i)) with (Z.to_nat batch_size) by lia.
  rewrite <- firstn_add.
  destruct (Z.le_ge_cases (i + batch_size) (Z.of_nat (List.length l))) as [H|H].
  - rewrite Z.min_l by lia. f_equal. lia.
  - rewrite Z.min_r by lia. rewrite !firstn_all2 by lia. reflexivity.
Qed.

Lemma slice_length {A : Type} (l : list A) (i batch_size : Z) :
  0 <= i < Z.of_nat (List.length l) -> 0 < batch_size ->
  Z.of_nat (List.length (slice l i (i + batch_size)))
  = Z.min (i + batch_size) (Z.of_nat (List.length l)) - i.
Proof.
  intros Hi Hb. unfold slice. rewrite length_firstn, length_skipn. lia.
Qed.

Lemma slice_In {A : Type} (l : list A) (i j : Z) (x : A) :
  In x (slice l i j) -> In x l.
Proof.
  unfold slice. intros H.
  rewrite <- (firstn_skipn (Z.to_nat i) l). apply in_or_app. right.
  rewrite <- (firstn_skipn (Z.to_nat (j - i)) (skipn (Z.to_nat i) l)).
  apply in_or_app. now left.
Qed.

(** ** The loops *)

Lemma batches_loop_rule (recipes : list recipe) (batch_size : Z)
      (P : upload_state -> Z -> Prop) :
  0 < batch_size ->
  (forall st i st',
      0 <= i < Z.of_nat (List.length recipes) ->
      P st i ->
      post_batch server (slice recipes i (i + batch_size)) st = Returned st' ->
      P st' (Z.min (i + batch_size) (Z.of_nat (List.length recipes)))) ->
  forall (n : nat) (j : Z) (st st' : upload_state),
    0 <= j ->
    Z.of_nat (List.length recipes) - j <= Z.of_nat n ->
    P st (Z.min j (Z.of_nat (List.length recipes))) ->
    batches_loop server recipes batch_size
                 (range_step j (Z.of_nat (List.length recipes)) batch_size) st
    = Returned st' ->
    P st' (Z.of_nat (List.length recipes)).
Proof.
  intros Hb Hstep. set (total := Z.of_nat (List.length recipes)) in *.
  induction n as [|n IH]; intros j st st' Hj Hn HP H.
  - rewrite range_step_empty in H by lia. cbn in H. inversion H; subst.
    now rewrite Z.min_r in HP by lia.
  - destruct (Z_le_gt_dec total j) as [Hdone|Hmore].
    + rewrite range_step_empty in H by lia. cbn in H. inversion H; subst.
      now rewrite Z.min_r in HP by lia.
    + rewrite range_step_cons in H by lia. cbn [batches_loop] in H.
      destruct (post_batch server (slice recipes j (j + batch_size)) st)
        as [st1|e] eqn:Ep; [|discriminate].
      rewrite Z.min_l in HP by lia.
      apply (IH (j + batch_size) st1 st'); [lia | lia | | exact H].
      apply (Hstep st j st1); [lia | exact HP | exact Ep].
Qed.

Lemma retry_loop_counts (clean_batch : list payload) (st st' : upload_state) :
  retry_loop server clean_batch st = Returned st' ->
  inserted st' + errors st' = inserted st + errors st
  /\ inserted st <= inserted st'
  /\ errors st - Z.of_nat (List.length clean_batch) <= errors st'
  /\ sent st' = sent st ++ map PostSingle clean_batch
  /\ inserted st' - inserted st
     = accepted_from server (sent st) (map PostSingle clean_batch).
Proof.
  revert st. induction clean_batch as [|p rest IH]; intros st H.
  - cbn in H. inversion H; subst. cbn. rewrite app_nil_r. repeat split; lia.
  - cbn [retry_loop] in H. cbn [map accepted_from request_size].
    destruct (server (sent st) (PostSingle p)) as [|[|]|];
      [| |discriminate|discriminate];
      apply IH in H; cbn [inserted errors sent] in H;
      destruct H as [H1 [H2 [H3 [H4 H5]]]];
      rewrite H4, <- app_assoc; cbn [app List.length];
      repeat split; lia.
Qed.

Lemma post_batch_counts (batch : list recipe) (st st' : upload_state) :
  post_batch server batch st = Returned st' ->
  inserted st' + errors st' = inserted st + errors st + Z.of_nat (List.length batch)
  /\ inserted st <= inserted st'
  /\ errors st <= errors st'
  /\ (exists singles : list payload,
         sent st' = sent st ++ PostBatch (map clean batch) :: map PostSingle singles
         /\ (singles = [] \/ singles = map clean batch))
  /\ inserted st' - inserted st
     = accepted_from server (sent st) (skipn (List.length (sent st)) (sent st')).
Proof.
  unfold post_batch. intros H.
  assert (Hskip : forall l : list request,
             skipn (List.length (sent st)) (sent st ++ l) = l).
  { intros l. rewrite skipn_app, skipn_all, Nat.sub_diag. reflexivity. }
  destruct (server (sent st) (PostBatch (map clean batch))) as [|[|]|] eqn:Es;
    [| |discriminate|discriminate].
  - inversion H; subst. cbn [inserted errors sent].
    rewrite Hskip. cbn [accepted_from request_size]. rewrite Es, length_map.
    repeat split; try lia.
    exists []. split; [reflexivity | now left].
  - apply retry_loop_counts in H. cbn [inserted errors sent] in H.
    rewrite length_map in H. destruct H as [H1 [H2 [H3 [H4 H5]]]].
    rewrite H4, <- app_assoc. cbn [app]. rewrite Hskip.
    cbn [accepted_from]. rewrite Es.
    repeat split; try lia.
    exists (map clean batch). split; [reflexivity | now right].
Qed.

Lemma accepted_from_app (history l1 l2 : list request) :
  accepted_from server history (l1 ++ l2)
  = accepted_from server history l1 + accepted_from server (history ++ l1) l2.
Proof.
  revert history. induction l1 as [|req l1 IH]; intros history; cbn [app accepted_from].
  - rewrite app_nil_r. lia.
  - rewrite IH, <- app_assoc. cbn [app]. lia.
Qed.

Lemma upload_returned (recipes : list recipe) (batch_size : Z) (st : upload_state) :
  0 < batch_size ->
  upload server recipes batch_size = Returned st ->
  batches_loop server recipes batch_size
               (range_step 0 (Z.of_nat (List.length recipes)) batch_size)
               {| inserted := 0; errors := 0; sent := [] |} = Returned st.
Proof.
  intros Hb. unfold upload. destruct (Z.eqb_spec batch_size 0); [lia | auto].
Qed.

Lemma upload_counts (recipes : list recipe) (batch_size : Z) (st : upload_state) :
  0 < batch_size ->
  upload server recipes batch_size = Returned st ->
  inserted st + errors st = Z.of_nat (List.length recipes)
  /\ 0 <= inserted st /\ 0 <= errors st.
Proof.
  intros Hb H. apply upload_returned in H; [|exact Hb].
  refine (batches_loop_rule recipes batch_size
            (fun s i => inserted s + errors s = i /\ 0 <= inserted s /\ 0 <= errors s)
            Hb _ (List.length recipes) 0 _ st _ _ _ H); try lia.
  - intros s i s' Hi [H1 [H2 H3]] Hp.
    apply post_batch_counts in Hp. destruct Hp as [Hc [Hi' [He _]]].
    rewrite slice_length in Hc by lia. lia.
  - cbn. lia.
Qed.

Lemma upload_batches (recipes : list recipe) (batch_size : Z) (st : upload_state) :
  0 < batch_size ->
  upload server recipes batch_size = Returned st ->
  flat_map batch_payloads (sent st) = map clean recipes
  /\ (forall b : list payload,
        In (PostBatch b) (sent st) -> 0 < Z.of_nat (List.length b) <= batch_size)
  /\ (forall p : payload, In (PostSingle p) (sent st) -> In p (map clean recipes)).
Proof.
  intros Hb H. apply upload_returned in H; [|exact Hb].
  assert (Hfm : forall l : list payload, flat_map batch_payloads (map PostSingle l) = []).
  { induction l as [|p l IH]; [reflexivity | exact IH]. }
  pose (P := fun (s : upload_state) (i : Z) =>
               flat_map batch_payloads (sent s)
               = map clean (firstn (Z.to_nat i) recipes)
               /\ (forall b : list payload,
                      In (PostBatch b) (sent s) ->
                      0 < Z.of_nat (List.length b) <= batch_size)
               /\ (forall p : payload,
                      In (PostSingle p) (sent s) -> In p (map clean recipes))).
  assert (Hend : P st (Z.of_nat (List.length recipes))).
  { refine (batches_loop_rule recipes batch_size P Hb _ (List.length recipes) 0 _ st
              _ _ _ H); try lia.
    - intros s i s' Hi [H1 [H2 H3]] Hp.
      apply post_batch_counts in Hp.
      destruct Hp as [_ [_ [_ [[singles [Hs Hsing]] _]]]].
      assert (Hsub : forall p : payload,
                 In p (map clean (slice recipes i (i + batch_size))) ->
                 In p (map clean recipes)).
      { intros p Hp. apply in_map_iff in Hp. destruct Hp as [r [<- Hr]].
        apply in_map. now apply slice_In in Hr. }
      unfold P. rewrite Hs. split; [|split].
      + rewrite flat_map_app. cbn [flat_map batch_payloads]. rewrite Hfm, app_nil_r.
        rewrite H1, firstn_slice by lia. now rewrite map_app.
      + intros b Hin. apply in_app_or in Hin. destruct Hin as [Hin|[Hin|Hin]].
        * now apply H2.
        * inversion Hin; subst. rewrite length_map, slice_length by lia. lia.
        * apply in_map_iff in Hin. destruct Hin as [x [Hx _]]. discriminate.
      + intros p Hin. apply in_app_or in Hin. destruct Hin as [Hin|[Hin|Hin]].
        * now apply H3.
        * discriminate.
        * apply in_map_iff in Hin. destruct Hin as [x [Hx Hin]]. inversion Hx; subst.
          destruct Hsing as [-> | ->]; [destruct Hin | now apply Hsub].
    - unfold P. rewrite Z.min_l by lia. cbn.
      split; [reflexivity|]. split; intros ? []. }
  destruct Hend as [H1 [H2 H3]]. rewrite Nat2Z.id, firstn_all in H1.
  repeat split; try assumption; now apply H2.
Qed.

Lemma upload_accepted (recipes : list recipe) (batch_size : Z) (st : upload_state) :
  0 < batch_size ->
  upload server recipes batch_size = Returned st ->
  inserted st = accepted_from server [] (sent st).
Proof.
  intros Hb H. apply upload_returned in H; [|exact Hb].
  refine (batches_loop_rule recipes batch_size
            (fun s _ => inserted s = accepted_from server [] (sent s))
            Hb _ (List.length recipes) 0 _ st _ _ _ H); try lia.
  - intros s i s' Hi HP Hp.
    apply post_batch_counts in Hp.
    destruct Hp as [_ [_ [_ [[singles [Hs _]] Ha]]]].
    rewrite Hs in *. rewrite skipn_app, skipn_all, Nat.sub_diag in Ha. cbn [skipn app] in Ha.
    rewrite accepted_from_app. cbn [app]. lia.
  - reflexivity.
Qed.

Lemma retry_loop_failed (clean_batch : list payload) (st : upload_state) (e : upload_exn) :
  retry_loop server clean_batch st = Failed e ->
  exists (history : list request) (req : request),
    (e = UrlopenFailed /\ server history req = TransportError)
    \/ (e = ReportFailed /\ server history req = HTTPError false).
Proof.
  revert st. induction clean_batch as [|p rest IH]; intros st H; [discriminate|].
  cbn [retry_loop] in H.
  destruct (server (sent st) (PostSingle p)) as [|[|]|] eqn:Es.
  - now apply IH in H.
  - now apply IH in H.
  - inversion H. exists (sent st), (PostSingle p). now right.
  - inversion H. exists (sent st), (PostSingle p). now left.
Qed.

Lemma batches_loop_failed (recipes : list recipe) (batch_size : Z) (starts : list Z)
      (st : upload_state) (e : upload_exn) :
  batches_loop server recipes batch_size starts st = Failed e ->
  exists (history : list request) (req : request),
    (e = UrlopenFailed /\ server history req = TransportError)
    \/ (e = ReportFailed /\ server history req = HTTPError false).
Proof.
  revert st. induction starts as [|i rest IH]; intros st H; [discriminate|].
  cbn [batches_loop] in H.
  destruct (post_batch server (slice recipes i (i + batch_size)) st) as [st1|e1] eqn:Ep.
  - now apply IH in H.
  - inversion H; subst. clear H. unfold post_batch in Ep.
    destruct (server (sent st) (PostBatch (map clean (slice recipes i (i + batch_size)))))
      as [|[|]|] eqn:Es.
    + discriminate.
    + now apply retry_loop_failed in Ep.
    + inversion Ep. eexists; eexists. right. split; [reflexivity | exact Es].
    + inversion Ep. eexists; eexists. left. split; [reflexivity | exact Es].
Qed.

(** X11.  With a positive batch size, when [insert_recipes_batch] returns,
    the two counters it returns are not negative and add up to the number of
    Records it was given: every Record is counted once, as inserted or as an
    error. *)
Theorem counters_add_up (recipes : list recipe) (batch_size ins err : Z)
  (Hsize : 0 < batch_size)
  (Hrun : insert_recipes_batch server recipes batch_size = Returned (ins, err)) :
  ins + err = Z.of_nat (List.length recipes) /\ 0 <= ins /\ 0 <= err.
Proof.
  unfold insert_recipes_batch in Hrun.
  destruct (upload server recipes batch_size) as [st|e] eqn:Eu; [|discriminate].
  inversion Hrun; subst. now apply (upload_counts recipes batch_size).
Qed.

(** X12.  With a positive batch size, the batch requests of a run that
    returns carry the Records given, cleaned, each once and in their order; no
    batch is empty or larger than the batch size; and a Record is posted alone
    only if it is one of the Records given. *)
Theorem batches_cover_the_records (recipes : list recipe) (batch_size : Z)
        (st : upload_state)
  (Hsize : 0 < batch_size)
  (Hrun : upload server recipes batch_size = Returned st) :
  flat_map batch_payloads (sent st) = map clean recipes
  /\ (forall b : list payload,
        In (PostBatch b) (sent st) -> 0 < Z.of_nat (List.length b) <= batch_size)
  /\ (forall p : payload, In (PostSingle p) (sent st) -> In p (map clean recipes)).
Proof.
  destruct (upload_batches recipes batch_size st Hsize Hrun) as [Hcover [Hsizes Hsingles]].
  split; [exact Hcover|]. split.
  - intros b Hb. now apply Hsizes.
  - intros p Hp. now apply Hsingles.
Qed.

(** X13.  With a positive batch size, the counter [inserted] of a run that
    returns is the number of Records in the requests that the server
    accepted, and [errors] is the number of the remaining Records. *)
Theorem inserted_is_what_the_server_accepted (recipes : list recipe) (batch_size : Z)
        (st : upload_state)
  (Hsize : 0 < batch_size)
  (Hrun : upload server recipes batch_size = Returned st) :
  inserted st = accepted_from server [] (sent st)
  /\ errors st = Z.of_nat (List.length recipes) - accepted_from server [] (sent st).
Proof.
  pose proof (upload_accepted recipes batch_size st Hsize Hrun) as Ha.
  pose proof (upload_counts recipes batch_size st Hsize Hrun) as [Hc _].
  split; [exact Ha | lia].
Qed.

(** X14.  [insert_recipes_batch] fails in three ways only: with the error of
    [range] when the batch size is zero; with the exception of [urlopen] when
    the server answers with something else than a response or an [HTTPError];
    and with the exception of a handler that cannot read or decode the body
    of an [HTTPError].  With a negative batch size it sends nothing and
    returns [(0, 0)], whatever Records it was given.  With a batch size that
    is not zero it returns whenever the server answers every request with a
    response or with an [HTTPError] whose body the handler can report. *)
Theorem upload_failures (recipes : list recipe) (batch_size : Z) :
  (batch_size = 0 -> insert_recipes_batch server recipes batch_size = Failed RangeStepZero)
  /\ (batch_size < 0 ->
      upload server recipes batch_size
      = Returned {| inserted := 0; errors := 0; sent := [] |}
      /\ insert_recipes_batch server recipes batch_size = Returned (0, 0))
  /\ (forall e : upload_exn,
        insert_recipes_batch server recipes batch_size = Failed e ->
        (e = RangeStepZero /\ batch_size = 0)
        \/ exists (history : list request) (req : request),
             (e = UrlopenFailed /\ server history req = TransportError)
             \/ (e = ReportFailed /\ server history req = HTTPError false))
  /\ (batch_size <> 0 ->
      (forall (history : list request) (req : request),
          server history req = Created \/ server history req = HTTPError true) ->
      exists p : Z * Z, insert_recipes_batch server recipes batch_size = Returned p).
Proof.
  assert (Hfail : forall e : upload_exn,
             insert_recipes_batch server recipes batch_size = Failed e ->
             (e = RangeStepZero /\ batch_size = 0)
             \/ exists (history : list request) (req : request),
                  (e = UrlopenFailed /\ server history req = TransportError)
                  \/ (e = ReportFailed /\ server history req = HTTPError false)).
  { intros e H. unfold insert_recipes_batch, upload in H.
    destruct (Z.eqb_spec batch_size 0) as [Hz|Hz].
    - inversion H. now left.
    - right.
      destruct (batches_loop server recipes batch_size
                  (range_step 0 (Z.of_nat (List.length recipes)) batch_size)
                  {| inserted := 0; errors := 0; sent := [] |}) as [st|e1] eqn:El;
        [discriminate|].
      inversion H; subst. now apply batches_loop_failed in El. }
  split; [|split; [|split]].
  - intros ->. reflexivity.
  - intros Hneg. unfold insert_recipes_batch, upload, range_step.
    destruct (Z.eqb_spec batch_size 0) as [Hz|Hz]; [lia|].
    destruct (Z.ltb_spec batch_size 0) as [_|Hge]; [|lia].
    split; reflexivity.
  - exact Hfail.
  - intros Hnz Hserver.
    destruct (insert_recipes_batch server recipes batch_size) as [p|e] eqn:E;
      [now exists p|].
    destruct (Hfail e eq_refl) as [[_ Hz]|[history [req Hs]]]; [contradiction|].
    destruct (Hserver history req) as [Hc|Hc];
      destruct Hs as [[_ Hs]|[_ Hs]]; congruence.
Qed.

Lemma accepted_from_all_created (history log : list request) :
  (forall (h : list request) (req : request), server h req = Created) ->
  accepted_from server history log
  = Z.of_nat (List.length (flat_map batch_payloads log))
    + Z.of_nat (List.length (flat_map single_payloads log)).
Proof.
  intros Hall. revert history.
  induction log as [|req log IH]; intros history; [reflexivity|].
  cbn [accepted_from flat_map]. rewrite Hall, IH, !length_app.
  destruct req; cbn [request_size batch_payloads single_payloads List.length]; lia.
Qed.

Lemma accepted_from_none_created (history log : list request) :
  (forall (h : list request) (req : request), server h req <> Created) ->
  accepted_from server history log = 0.
Proof.
  intros Hnone. revert history.
  induction log as [|req log IH]; intros history; [reflexivity|].
  cbn [accepted_from]. rewrite IH.
  destruct (server history req) eqn:E; [now apply Hnone in E | reflexivity | reflexivity].
Qed.

(** X18.  With a positive batch size, a run against a server that accepts
    every request returns with every Record inserted, no error and no Record
    posted alone; a run that returns although the server accepted no request
    reports no Record inserted and every Record as an error. *)
Theorem upload_extremes (recipes : list recipe) (batch_size : Z) (st : upload_state)
  (Hsize : 0 < batch_size)
  (Hrun : upload server recipes batch_size = Returned st) :
  ((forall (h : list request) (req : request), server h req = Created) ->
   inserted st = Z.of_nat (List.length recipes)
   /\ errors st = 0
   /\ flat_map single_payloads (sent st) = [])
  /\ ((forall (h : list request) (req : request), server h req <> Created) ->
      inserted st = 0 /\ errors st = Z.of_nat (List.length recipes)).
Proof.
  pose proof (upload_accepted recipes batch_size st Hsize Hrun) as Ha.
  pose proof (upload_counts recipes batch_size st Hsize Hrun) as [Hc [Hi He]].
  pose proof (upload_batches recipes batch_size st Hsize Hrun) as [Hb _].
  split.
  - intros Hall. rewrite (accepted_from_all_created [] (sent st) Hall) in Ha.
    rewrite Hb, length_map in Ha.
    assert (Hz : List.length (flat_map single_payloads (sent st)) = O) by lia.
    repeat split; try lia. now apply length_zero_iff_nil.
  - intros Hnone. rewrite (accepted_from_none_created [] (sent st) Hnone) in Ha. lia.
Qed.

End Upload.

(** * Properties of [main] *)

Section Main.

Context {RT : Runtime}.

Local Open Scope list_scope.

Lemma existsb_eqb_In (x : string) (l : list string) :
  existsb (String.eqb x) l = true <-> In x l.
Proof.
  rewrite existsb_exists. split.
  - intros [y [Hy He]]. apply String.eqb_eq in He. now subst.
  - intros H. exists x. split; [exact H | apply String.eqb_refl].
Qed.

(** X15.  [main] never posts anything when [--dry-run] is among the
    arguments, [--yes] or not.  Without [--dry-run], it uploads the Records
    parsed, in batches of 50, when [--yes] is given or the answer typed is
    "yes" or "y" in any mix of upper and lower case, and aborts on any other
    answer. *)
Theorem main_uploads_only_when_confirmed ids server ws argv response :
  (In "--dry-run" argv ->
   forall recipes run, main ids server ws argv response <> Inserting recipes run)
  /\ (forall recipes : list recipe,
        parse_excel ids ws = Ok recipes ->
        ~ In "--dry-run" argv ->
        (In "--yes" argv \/ lower response = "yes" \/ lower response = "y" ->
         main ids server ws argv response = Inserting recipes (upload server recipes 50))
        /\ (~ In "--yes" argv -> lower response <> "yes" -> lower response <> "y" ->
            main ids server ws argv response = Aborted recipes)).
Proof.
  unfold main. split.
  - intros Hdry recipes run. apply existsb_eqb_In in Hdry.
    destruct (parse_excel ids ws); [rewrite Hdry|]; discriminate.
  - intros recipes -> Hdry.
    destruct (existsb (String.eqb "--dry-run") argv) eqn:Ed;
      [now apply existsb_eqb_In in Ed|].
    split.
    + intros Hyes.
      destruct (existsb (String.eqb "--yes") argv) eqn:Ey; [reflexivity|].
      destruct Hyes as [Hyes|Hans]; [apply existsb_eqb_In in Hyes; congruence|].
      assert (Hin : existsb (String.eqb (lower response)) ["yes"; "y"] = true).
      { apply existsb_eqb_In. destruct Hans as [Hans | Hans]; rewrite Hans; cbn; auto. }
      now rewrite Hin.
    + intros Hyes H1 H2.
      destruct (existsb (String.eqb "--yes") argv) eqn:Ey;
        [now apply existsb_eqb_In in Ey|].
      destruct (existsb (String.eqb (lower response)) ["yes"; "y"]) eqn:Ea;
        [|reflexivity].
      apply existsb_eqb_In in Ea. cbn in Ea. destruct Ea as [Ea|[Ea|[]]]; congruence.
Qed.

(** X16.  When [main] uploads and the upload returns, the batch requests sent
    carry exactly the Records that [parse_excel] returned for the sheet, in
    their order and at most 50 per request, and the two counters reported add
    up to the number of these Records. *)
Theorem main_posts_the_parsed_records ids server ws argv response recipes st
  (Hmain : main ids server ws argv response = Inserting recipes (Returned st)) :
  parse_excel ids ws = Ok recipes
  /\ flat_map batch_payloads (sent st) = map clean recipes
  /\ (forall b : list payload,
        In (PostBatch b) (sent st) -> 0 < Z.of_nat (List.length b) <= 50)
  /\ inserted st + errors st = Z.of_nat (List.length recipes).
Proof.
  unfold main in Hmain.
  destruct (parse_excel ids ws) as [out|e]; [|discriminate].
  destruct (existsb (String.eqb "--dry-run") argv); [discriminate|].
  destruct (negb (existsb (String.eqb "--yes") argv)
            && negb (existsb (String.eqb (lower response)) ["yes"; "y"]));
    [discriminate|].
  inversion Hmain as [[Hr Hu]]. subst out.
  assert (H50 : 0 < 50) by lia.
  destruct (upload_batches server recipes 50 st H50 Hu) as [Hb [Hsz _]].
  destruct (upload_counts server recipes 50 st H50 Hu) as [Hc _].
  repeat split; try assumption; now apply Hsz.
Qed.

(** ** The category summary *)

Lemma dict_get_set (d : list (string * Z)) (k k' : string) (v default : Z) :
  dict_get (dict_set d k v) k' default
  = if (k =? k')%string then v else dict_get d k' default.
Proof.
  induction d as [|[k0 v0] d IH]; cbn [dict_set dict_get].
  - destruct (String.eqb_spec k k'); reflexivity.
  - destruct (String.eqb_spec k0 k) as [->|Hk0]; cbn [dict_get].
    + destruct (String.eqb_spec k k'); reflexivity.
    + rewrite IH. destruct (String.eqb_spec k0 k') as [->|Hk0'].
      * destruct (String.eqb_spec k k'); [congruence | reflexivity].
      * reflexivity.
Qed.

Lemma dict_set_keys (d : list (string * Z)) (k : string) (v : Z) :
  (forall k' : string, In k' (map fst (dict_set d k v)) <-> k' = k \/ In k' (map fst d))
  /\ (NoDup (map fst d) -> NoDup (map fst (dict_set d k v))).
Proof.
  induction d as [|[k0 v0] d [IHin IHnd]]; cbn [dict_set map fst].
  - split.
    + intros k'. cbn. intuition.
    + intros _. constructor; [intros [] | constructor].
  - destruct (String.eqb_spec k0 k) as [->|Hk0]; cbn [map fst].
    + split; [intros k'; cbn; intuition | auto].
    + split.
      * intros k'. cbn [In]. rewrite IHin. intuition.
      * intros Hnd. inversion Hnd; subst. constructor; [|now apply IHnd].
        rewrite IHin. intros [H|H]; [congruence | contradiction].
Qed.

Lemma categories_from (recipes : list recipe) (d : list (string * Z)) (c : string) :
  dict_get (fold_left (fun d r => dict_set d (shown_category r)
                                    (dict_get d (shown_category r) 0 + 1))
                      recipes d) c 0
  = dict_get d c 0
    + Z.of_nat (List.length (filter (fun r => (shown_category r =? c)%string) recipes)).
Proof.
  revert d. induction recipes as [|r rest IH]; intros d; cbn [fold_left filter].
  - cbn. lia.
  - rewrite IH, dict_get_set.
    destruct (String.eqb_spec (shown_category r) c) as [->|Hne]; cbn [List.length]; lia.
Qed.

Lemma categories_keys_from (recipes : list recipe) (d : list (string * Z)) :
  NoDup (map fst d) ->
  NoDup (map fst (fold_left (fun d r => dict_set d (shown_category r)
                                          (dict_get d (shown_category r) 0 + 1))
                            recipes d))
  /\ forall c : string,
      In c (map fst (fold_left (fun d r => dict_set d (shown_category r)
                                             (dict_get d (shown_category r) 0 + 1))
                               recipes d))
      <-> In c (map fst d) \/ exists r : recipe, In r recipes /\ shown_category r = c.
Proof.
  revert d. induction recipes as [|r rest IH]; intros d Hnd; cbn [fold_left].
  - split; [exact Hnd|]. intros c. split; [now left | intros [H|[r [[] _]]]; exact H].
  - destruct (dict_set_keys d (shown_category r) (dict_get d (shown_category r) 0 + 1))
      as [Hin Hk].
    destruct (IH _ (Hk Hnd)) as [IH1 IH2]. split; [exact IH1|].
    intros c. rewrite IH2, Hin. split.
    + intros [[->|H]|[x [Hx Hc]]].
      * right. exists r. split; [now left | reflexivity].
      * now left.
      * right. exists x. split; [now right | exact Hc].
    + intros [H|[x [[<-|Hx] Hc]]].
      * left. now right.
      * left. left. now rewrite Hc.
      * right. now exists x.
Qed.

(** X17.  The category summary of [main] has one entry for each category that
    occurs among the Records, with "Uncategorized" standing for the empty
    category, and the count of an entry is the number of Records of that
    category; a category that does not occur has no entry. *)
Theorem categories_count_the_records (recipes : list recipe) :
  NoDup (map fst (categories recipes))
  /\ (forall c : string,
        In c (map fst (categories recipes)) <->
        exists r : recipe, In r recipes /\ shown_category r = c)
  /\ (forall c : string,
        dict_get (categories recipes) c 0
        = Z.of_nat (List.length
                      (filter (fun r => (shown_category r =? c)%string) recipes)))
  /\ (forall r : recipe,
        shown_category r <> ""
        /\ (rcp_category r = "" -> shown_category r = "Uncategorized")
        /\ (rcp_category r <> "" -> shown_category r = rcp_category r)).
Proof.
  unfold categories.
  destruct (categories_keys_from recipes [] (NoDup_nil _)) as [Hnd Hin].
  split; [exact Hnd|]. split; [|split].
  - intros c. rewrite Hin. cbn. split; [intros [[]|H]; exact H | now right].
  - intros c. rewrite categories_from. cbn. lia.
  - intros r. unfold shown_category.
    destruct (String.eqb_spec (rcp_category r) "") as [He|Hne].
    + repeat split; [discriminate | congruence].
    + repeat split; [exact Hne | contradiction].
Qed.

End Main.



(** * Concrete runs *)

#[local] Existing Instance decimal_runtime.
Local Open Scope list_scope.

(** ** Runs that satisfy the hypotheses of the theorems above *)

Lemma line_items_end_at_blank_row_witness :
  exists r : recipe,
    find_ingredients_start note_sheet 2 9 = Some 5
    /\ parse_recipe numbered_ids note_sheet "Chili" 2 9 None 0 = Ok (Some r, 3%nat)
    /\ Forall2 (item_of_row numbered_ids note_sheet) [5; 7] (rcp_ingredients r).
Proof.
  eexists. split; [reflexivity|]. split; [vm_compute; reflexivity|].
  exact (proj1 (line_items_end_at_blank_row numbered_ids note_sheet "Chili" 2 9 None
                  0%nat _ 3%nat 5 eq_refl eq_refl)).
Defined.

Lemma effective_quantity_rule_witness :
  exists (out : list recipe) (r : recipe) (ing : ingredient),
    parse_excel numbered_ids soups_sheet = Ok out
    /\ In r out
    /\ In ing (rcp_ingredients r)
    /\ exists row : Z,
        item_of_row numbered_ids soups_sheet row ing
        /\ (forall v : Q,
              truthy (cell soups_sheet row 8) = true ->
              py_float (cell soups_sheet row 8) = Ok v ->
              ing_quantity ing = v).
Proof.
  eexists. eexists. eexists.
  split; [vm_compute; reflexivity|].
  split; [right; left; reflexivity|].
  split; [left; reflexivity|].
  refine (match effective_quantity_rule numbered_ids soups_sheet _ _ _ _ _ _ with
          | ex_intro _ row (conj Hrow Hrule) =>
              ex_intro _ row (conj Hrow (proj1 Hrule))
          end).
  - vm_compute; reflexivity.
  - right; left; reflexivity.
  - left; reflexivity.
Defined.

Lemma marker_yields_record_iff_witness :
  exists st' : scan_state,
    marker_step numbered_ids soups_sheet [3; 11] 0 3 initial_state = Ok st'
    /\ exists r : recipe,
        recipes st' = recipes initial_state ++ [r]
        /\ exists name_row : Z, find_name soups_sheet 3 = Some (rcp_name r, name_row).
Proof.
  eexists. split; [vm_compute; reflexivity|].
  refine (proj2 (proj1 (proj2 (marker_yields_record_iff numbered_ids soups_sheet [3; 11]
                                 0%nat 3 initial_state _ _))) _).
  - vm_compute; reflexivity.
  - split; [reflexivity | vm_compute; discriminate].
Defined.

Lemma category_is_sticky_witness :
  exists (st st' : scan_state) (r : recipe),
    recipe_id_rows soups_sheet = [] ++ 3 :: [] ++ 11 :: []
    /\ own_category soups_sheet (recipe_id_rows soups_sheet) 0 3 = Some "Soups"
    /\ own_category soups_sheet (recipe_id_rows soups_sheet) 1 11 = None
    /\ markers_loop numbered_ids soups_sheet (recipe_id_rows soups_sheet) 0 ([] ++ 3 :: [])
                    initial_state = Ok st
    /\ marker_step numbered_ids soups_sheet (recipe_id_rows soups_sheet) 1 11 st = Ok st'
    /\ recipes st' = recipes st ++ [r]
    /\ current_category st = Some "Soups"
    /\ rcp_category r = "Soups"
    /\ (forall out : list recipe, parse_excel numbered_ids soups_sheet = Ok out -> In r out).
Proof.
  eexists. eexists. eexists.
  split; [vm_compute; reflexivity|]. split; [vm_compute; reflexivity|].
  split; [vm_compute; reflexivity|]. split; [vm_compute; reflexivity|].
  split; [vm_compute; reflexivity|]. split; [vm_compute; reflexivity|].
  refine (category_is_sticky numbered_ids soups_sheet [] 3 [] 11 [] "Soups"
            _ _ _ _ _ _ _ _ _).
  - vm_compute; reflexivity.
  - vm_compute; reflexivity.
  - intros [|[|k]] rid H; cbn in H; try discriminate.
    injection H as <-. vm_compute; reflexivity.
  - vm_compute; reflexivity.
  - vm_compute; reflexivity.
  - vm_compute; reflexivity.
Defined.

Lemma scale_factor_stored_witness :
  exists (out : list recipe) (r : recipe),
    parse_excel numbered_ids soups_sheet = Ok out
    /\ In r out
    /\ keeps_whole_numbers round2
    /\ rcp_total_yield_grams r == 500
    /\ rcp_serving_size_grams r == 100
    /\ rcp_scale_factor r == 5.
Proof.
  eexists. eexists.
  split; [vm_compute; reflexivity|].
  split; [left; reflexivity|].
  split; [exact round2_exact_keeps_whole_numbers|].
  split; [reflexivity|]. split; [reflexivity|].
  refine (proj2 (proj2 (proj2 (scale_factor_stored numbered_ids soups_sheet _ _ _ _)))
            round2_exact_keeps_whole_numbers _ _).
  - vm_compute; reflexivity.
  - left; reflexivity.
  - reflexivity.
  - reflexivity.
Defined.

Lemma serving_size_rule_witness :
  exists r : recipe,
    parse_recipe numbered_ids negative_serving_sheet "Broth" 2 5 None 0 = Ok (Some r, 2%nat)
    /\ per_serving_weight (parse_metadata negative_serving_sheet 2 5) = Some (-50)%Q
    /\ ~ (-50)%Q == 0
    /\ rcp_serving_size_grams r = (-50)%Q.
Proof.
  eexists. split; [vm_compute; reflexivity|]. split; [reflexivity|].
  split; [intros H; discriminate H|].
  refine (proj2 (proj2 (serving_size_rule numbered_ids negative_serving_sheet "Broth" 2 5
                          None 0%nat _ 2%nat _)) (-50)%Q _ _).
  - vm_compute; reflexivity.
  - reflexivity.
  - intros H; discriminate H.
Defined.

Lemma record_count_bounded_witness :
  recipe_id_rows plain_sheet = []
  /\ parse_excel numbered_ids plain_sheet = Ok []
  /\ exists out : list recipe,
      parse_excel numbered_ids soups_sheet = Ok out
      /\ (List.length out <= List.length (recipe_id_rows soups_sheet))%nat.
Proof.
  split; [reflexivity|]. split.
  - apply (proj1 (record_count_bounded numbered_ids plain_sheet)). reflexivity.
  - eexists. split; [vm_compute; reflexivity|].
    apply (proj2 (record_count_bounded numbered_ids soups_sheet)).
    vm_compute; reflexivity.
Defined.

Lemma date_rule_exact_witness :
  truthy (cell nuggets_sheet 1 1) = true
  /\ truthy (cell nuggets_sheet 1 2) = false
  /\ is_header (strip (str (cell nuggets_sheet 1 1))) = false
  /\ find_name_loop nuggets_sheet [1] = find_name_loop nuggets_sheet [].
Proof.
  split; [reflexivity|]. split; [reflexivity|]. split; [reflexivity|].
  destruct (date_rule_exact nuggets_sheet 1 [] eq_refl eq_refl eq_refl)
    as [Hiff [Hrej _]].
  apply Hrej, Hiff. reflexivity.
Defined.

Lemma quantity_fields_agree_witness :
  exists (out : list recipe) (r : recipe) (ing : ingredient),
    parse_excel numbered_ids soups_sheet = Ok out
    /\ In r out
    /\ In ing (rcp_ingredients r)
    /\ ing_quantity_in_grams ing = ing_quantity ing
    /\ ing_yield_quantity_in_grams ing = ing_quantity ing.
Proof.
  eexists. eexists. eexists.
  split; [vm_compute; reflexivity|].
  split; [right; left; reflexivity|].
  split; [left; reflexivity|].
  refine (quantity_fields_agree numbered_ids soups_sheet _ _ _ _ _ _).
  - vm_compute; reflexivity.
  - right; left; reflexivity.
  - left; reflexivity.
Defined.

(** ** Runs on which the specification and the script differ *)

(** C1: the row below a note row without ordinal is collected. *)
Lemma note_row_does_not_end_collection :
  exists r : recipe,
    parse_excel numbered_ids note_sheet = Ok [r]
    /\ map ing_name (rcp_ingredients r) = ["Beans"; "Salt"]
    /\ find_ingredients_start note_sheet 2 (max_row note_sheet) = Some 5
    /\ cell note_sheet 6 1 = VNone
    /\ cell note_sheet 6 3 = VStr "organic"
    /\ cell note_sheet 7 3 = VStr "Salt"
    /\ collected_rows note_sheet (range 5 (max_row note_sheet + 1)) = [5; 7]
    /\ ~ (forall blank row : Z,
            5 <= blank <= max_row note_sheet ->
            cell note_sheet blank 1 = VNone ->
            In row (collected_rows note_sheet (range 5 (max_row note_sheet + 1))) ->
            row < blank).
Proof.
  eexists. split; [vm_compute; reflexivity|].
  repeat (split; [vm_compute; reflexivity|]).
  intros H. specialize (H 6 7).
  assert (7 < 6) as Habs; [|lia].
  apply H; [vm_compute; split; discriminate | reflexivity | vm_compute; auto].
Qed.

(** C2: a yield-adjusted quantity that is text gives zero, not the raw quantity. *)
Lemma unparseable_yield_gives_zero :
  exists (r : recipe) (ing : ingredient),
    parse_excel numbered_ids text_yield_sheet = Ok [r]
    /\ rcp_ingredients r = [ing]
    /\ cell text_yield_sheet 4 8 = VStr "n/a"
    /\ cell text_yield_sheet 4 6 = VNum 5
    /\ ing_quantity ing = 0%Q
    /\ effective_quantity_spec (cell text_yield_sheet 4 8) (cell text_yield_sheet 4 6) = 5%Q
    /\ ~ ing_quantity ing
         == effective_quantity_spec (cell text_yield_sheet 4 8) (cell text_yield_sheet 4 6).
Proof.
  eexists. eexists. split; [vm_compute; reflexivity|].
  repeat (split; [vm_compute; reflexivity|]).
  vm_compute. discriminate.
Qed.

(** C3: a marker whose name resolves and that still yields no Record. *)
Lemma named_marker_without_record :
  recipe_id_rows no_ingredients_sheet = [2]
  /\ find_name no_ingredients_sheet 2 = Some ("Porridge", 1)
  /\ name_missing (find_name no_ingredients_sheet 2) = false
  /\ marker_step numbered_ids no_ingredients_sheet [2] 0 2 initial_state = Ok initial_state
  /\ parse_excel numbered_ids no_ingredients_sheet = Ok [].
Proof.
  repeat split; vm_compute; reflexivity.
Qed.

(** C5: with a negative serving size the stored scale factor is 1 and not the
    rounded quotient; a per-serving weight of zero gives serving size 100 and
    the quotient, not the guard value 1. *)
Lemma negative_serving_stores_one :
  (exists r : recipe,
      parse_excel numbered_ids negative_serving_sheet = Ok [r]
      /\ rcp_total_yield_grams r = 500%Q
      /\ rcp_serving_size_grams r = (-50)%Q
      /\ rcp_total_yield_grams r / rcp_serving_size_grams r == -10
      /\ rcp_scale_factor r = 1%Q
      /\ ~ rcp_scale_factor r == -10)
  /\ (exists r : recipe,
         parse_excel numbered_ids zero_serving_sheet = Ok [r]
         /\ per_serving_weight (parse_metadata zero_serving_sheet 2 5) = Some 0%Q
         /\ rcp_serving_size_grams r = 100%Q
         /\ rcp_scale_factor r = 5%Q
         /\ ~ rcp_scale_factor r == 1).
Proof.
  split.
  - eexists. split; [vm_compute; reflexivity|].
    repeat (split; [vm_compute; reflexivity|]).
    vm_compute. discriminate.
  - eexists. split; [vm_compute; reflexivity|].
    repeat (split; [vm_compute; reflexivity|]).
    vm_compute. discriminate.
Qed.

(** C6: a negative per-serving weight is the serving size of the Record. *)
Lemma negative_weight_is_kept :
  exists r : recipe,
    parse_excel numbered_ids negative_serving_sheet = Ok [r]
    /\ per_serving_weight (parse_metadata negative_serving_sheet 2 5) = Some (-50)%Q
    /\ rcp_serving_size_grams r = (-50)%Q
    /\ ~ rcp_serving_size_grams r == 100.
Proof.
  eexists. split; [vm_compute; reflexivity|].
  repeat (split; [vm_compute; reflexivity|]).
  vm_compute. discriminate.
Qed.

(** C8: a name without any four-digit year is rejected as a date. *)
Lemma date_rule_without_year :
  cell nuggets_sheet 1 1 = VStr "20-piece Nuggets"
  /\ has_year_pattern "20-piece Nuggets" = false
  /\ is_date_like "20-piece Nuggets" = true
  /\ find_name nuggets_sheet 2 = None
  /\ parse_excel numbered_ids nuggets_sheet = Ok [].
Proof.
  repeat split; vm_compute; reflexivity.
Qed.

(** ** Runs for the further properties *)

Lemma recipe_id_rows_ascending_witness :
  StronglySorted Z.lt (recipe_id_rows soups_sheet)
  /\ (In 11 (recipe_id_rows soups_sheet) <->
      1 <= 11 <= max_row soups_sheet
      /\ truthy (cell soups_sheet 11 2) = true
      /\ occurs_in "Recipe ID" (str (cell soups_sheet 11 2))).
Proof.
  split.
  - exact (proj1 (recipe_id_rows_ascending soups_sheet)).
  - exact (proj2 (recipe_id_rows_ascending soups_sheet) 11).
Defined.

Lemma find_name_nearest_witness :
  find_name soups_sheet 11 = Some ("Tomato Soup", 10)
  /\ ("Tomato Soup" = strip (str (cell soups_sheet 10 1))
      /\ is_date_like "Tomato Soup" = false).
Proof.
  split; [reflexivity|].
  destruct (proj2 (find_name_nearest soups_sheet 11) "Tomato Soup" 10 eq_refl)
    as [_ [_ [Hn [_ [_ [_ [_ [Hd _]]]]]]]].
  split; [exact Hn | exact Hd].
Defined.

Lemma find_category_source_witness :
  find_category soups_sheet [3; 11] 0 2 = Some "Soups"
  /\ exists r : Z,
      1 <= r /\ 2 - 4 <= r < 2 /\ "Soups" = strip (str (cell soups_sheet r 1)).
Proof.
  assert (Hcat : find_category soups_sheet [3; 11] 0 2 = Some "Soups")
    by (vm_compute; reflexivity).
  split; [exact Hcat|].
  destruct (find_category_source soups_sheet [3; 11] 0%nat 2 "Soups" Hcat)
    as [r [H1 [H2 [H3 _]]]].
  exists r. split; [exact H1|]. split; [exact H2 | exact H3].
Defined.

Lemma ingredients_start_below_first_label_witness :
  find_ingredients_start soups_sheet 3 13 = Some 7
  /\ exists label : Z,
      3 <= label < 3 + 12 /\ label <= 13
      /\ is_ingredients_label (cell soups_sheet label 1) = true.
Proof.
  split; [reflexivity|].
  destruct (ingredients_start_below_first_label soups_sheet 3 13 7 eq_refl)
    as [label [H1 [H2 [H3 _]]]].
  exists label. split; [exact H1|]. split; [exact H2 | exact H3].
Defined.

Lemma metadata_reads_window_only_witness :
  3 <= 5 <= 13
  /\ is_ingredients_label (cell soups_sheet 5 1) = true
  /\ cell soups_sheet_changed_below 8 2 <> cell soups_sheet 8 2
  /\ parse_metadata soups_sheet_changed_below 3 13 = parse_metadata soups_sheet 3 13.
Proof.
  split; [lia|]. split; [reflexivity|]. split; [discriminate|].
  refine (proj2 (metadata_reads_window_only soups_sheet soups_sheet_changed_below 3 13)
                5 _ _ _).
  - lia.
  - reflexivity.
  - intros r c Hr. unfold soups_sheet_changed_below. cbn [cell].
    destruct (Z.leb_spec r 5) as [_|Hgt]; [reflexivity | lia].
Defined.

Lemma output_follows_markers_witness :
  exists out : list recipe,
    parse_excel numbered_ids soups_sheet = Ok out
    /\ filter (yields_record soups_sheet) (recipe_id_rows soups_sheet) = [3; 11]
    /\ Forall2 (fun rid r =>
                  exists name_row : Z, find_name soups_sheet rid = Some (rcp_name r, name_row))
               [3; 11] out.
Proof.
  eexists. split; [vm_compute; reflexivity|]. split; [vm_compute; reflexivity|].
  refine (Forall2_impl _ _ (output_follows_markers numbered_ids soups_sheet _ _)).
  - intros rid r H. exact (proj1 H).
  - vm_compute; reflexivity.
Defined.

Lemma record_names_are_clean_witness :
  exists (out : list recipe) (r : recipe),
    parse_excel numbered_ids soups_sheet = Ok out
    /\ In r out
    /\ rcp_name r <> ""
    /\ strip (rcp_name r) = rcp_name r
    /\ is_header (rcp_name r) = false
    /\ is_date_like (rcp_name r) = false.
Proof.
  eexists. eexists. split; [vm_compute; reflexivity|]. split; [left; reflexivity|].
  refine (record_names_are_clean numbered_ids soups_sheet _ _ _ _).
  - vm_compute; reflexivity.
  - left; reflexivity.
Defined.


Lemma tally_ids_injective (i j : nat) : tally_ids i = tally_ids j -> i = j.
Proof.
  revert j. induction i as [|i IH]; intros [|j] H; cbn in H; try discriminate.
  - reflexivity.
  - f_equal. apply IH. now inversion H.
Defined.

Lemma identifiers_are_fresh_witness :
  exists out : list recipe,
    parse_excel tally_ids soups_sheet = Ok out
    /\ List.length (id_texts out) = 5%nat
    /\ NoDup (id_texts out).
Proof.
  eexists. split; [vm_compute; reflexivity|]. split; [reflexivity|].
  refine (proj2 (identifiers_are_fresh tally_ids soups_sheet _ _) tally_ids_injective).
  vm_compute; reflexivity.
Defined.

Lemma extraction_raises_only_on_bad_numbers_witness :
  parse_excel numbered_ids text_cost_sheet = Raise ValueError
  /\ raises_on (cell text_cost_sheet 4 9) = true
  /\ exists row : Z,
      row <= max_row text_cost_sheet /\ cell text_cost_sheet row 1 <> VNone
      /\ (raises_on (cell text_cost_sheet row 9) = true
          \/ raises_on (cell text_cost_sheet row 7) = true).
Proof.
  split; [reflexivity|]. split; [reflexivity|].
  exact (proj1 (extraction_raises_only_on_bad_numbers numbered_ids text_cost_sheet)
               eq_refl).
Defined.

Lemma counters_add_up_witness :
  parse_excel numbered_ids soups_sheet = Ok soups_records
  /\ 0 < 1
  /\ insert_recipes_batch refuse_batches soups_records 1 = Returned (2, 0)
  /\ 2 + 0 = Z.of_nat (List.length soups_records).
Proof.
  split; [vm_compute; reflexivity|]. split; [lia|].
  split; [vm_compute; reflexivity|].
  refine (proj1 (counters_add_up refuse_batches soups_records 1 2 0 _ _)).
  - lia.
  - vm_compute; reflexivity.
Defined.

Lemma batches_cover_the_records_witness :
  exists st : upload_state,
    upload refuse_batches soups_records 1 = Returned st
    /\ List.length (sent st) = 4%nat
    /\ flat_map batch_payloads (sent st) = map clean soups_records.
Proof.
  eexists. split; [vm_compute; reflexivity|]. split; [reflexivity|].
  refine (proj1 (batches_cover_the_records refuse_batches soups_records 1 _ _ _)).
  - lia.
  - vm_compute; reflexivity.
Defined.

Lemma inserted_is_what_the_server_accepted_witness :
  exists st : upload_state,
    upload refuse_batches soups_records 1 = Returned st
    /\ inserted st = accepted_from refuse_batches [] (sent st).
Proof.
  eexists. split; [vm_compute; reflexivity|].
  refine (proj1 (inserted_is_what_the_server_accepted refuse_batches soups_records 1
                   _ _ _)).
  - lia.
  - vm_compute; reflexivity.
Defined.

Lemma upload_failures_witness :
  insert_recipes_batch accept_all soups_records 0 = Failed RangeStepZero
  /\ (-50 < 0 -> insert_recipes_batch accept_all soups_records (-50) = Returned (0, 0))
  /\ exists p : Z * Z, insert_recipes_batch refuse_batches soups_records 50 = Returned p.
Proof.
  split; [|split].
  - exact (proj1 (upload_failures accept_all soups_records 0) eq_refl).
  - intros H.
    exact (proj2 (proj1 (proj2 (upload_failures accept_all soups_records (-50))) H)).
  - refine (proj2 (proj2 (proj2 (upload_failures refuse_batches soups_records 50))) _ _).
    + discriminate.
    + intros history [b|p]; [now right | now left].
Defined.

Lemma upload_extremes_witness :
  exists st : upload_state,
    upload accept_all soups_records 50 = Returned st
    /\ inserted st = Z.of_nat (List.length soups_records)
    /\ errors st = 0
    /\ flat_map single_payloads (sent st) = [].
Proof.
  eexists. split; [vm_compute; reflexivity|].
  refine (proj1 (upload_extremes accept_all soups_records 50 _ _ _) _).
  - lia.
  - vm_compute; reflexivity.
  - reflexivity.
Defined.

Lemma main_uploads_only_when_confirmed_witness :
  In "--dry-run" ["import.py"; "--yes"; "--dry-run"]
  /\ (forall recipes run,
         main numbered_ids accept_all soups_sheet ["import.py"; "--yes"; "--dry-run"] "yes"
         <> Inserting recipes run)
  /\ exists out : list recipe,
      parse_excel numbered_ids soups_sheet = Ok out
      /\ ~ In "--dry-run" ["import.py"]
      /\ lower "Yes" = "yes"
      /\ main numbered_ids accept_all soups_sheet ["import.py"] "Yes"
         = Inserting out (upload accept_all out 50).
Proof.
  split; [cbn; tauto|]. split.
  - refine (proj1 (main_uploads_only_when_confirmed numbered_ids accept_all soups_sheet
                     ["import.py"; "--yes"; "--dry-run"] "yes") _).
    cbn; tauto.
  - eexists. split; [vm_compute; reflexivity|].
    assert (Hno : ~ In "--dry-run" ["import.py"])
      by (intros [H|[]]; discriminate H).
    split; [exact Hno|]. split; [reflexivity|].
    refine (proj1 (proj2 (main_uploads_only_when_confirmed numbered_ids accept_all
                             soups_sheet ["import.py"] "Yes") _ _ Hno) _).
    + vm_compute; reflexivity.
    + right. left. reflexivity.
Defined.

Lemma main_posts_the_parsed_records_witness :
  exists (out : list recipe) (st : upload_state),
    main numbered_ids refuse_batches soups_sheet ["import.py"; "--yes"] ""
    = Inserting out (Returned st)
    /\ parse_excel numbered_ids soups_sheet = Ok out
    /\ inserted st + errors st = Z.of_nat (List.length out).
Proof.
  eexists. eexists. split; [vm_compute; reflexivity|].
  refine (match main_posts_the_parsed_records numbered_ids refuse_batches soups_sheet
                  ["import.py"; "--yes"] "" _ _ _ with
          | conj Hp (conj _ (conj _ Hc)) => conj Hp Hc
          end).
  vm_compute; reflexivity.
Defined.

Lemma categories_count_the_records_witness :
  exists out : list recipe,
    parse_excel numbered_ids soups_sheet = Ok out
    /\ categories out = [("Soups", 2)]
    /\ dict_get (categories out) "Soups" 0
       = Z.of_nat (List.length (filter (fun r => (shown_category r =? "Soups")%string) out)).
Proof.
  eexists. split; [vm_compute; reflexivity|]. split; [vm_compute; reflexivity|].
  exact (proj1 (proj2 (proj2 (categories_count_the_records _))) "Soups").
Defined.

Lemma category_empty_until_resolved_witness :
  exists (st' : scan_state) (r : recipe),
    recipe_id_rows note_sheet = [] ++ 2 :: []
    /\ own_category note_sheet (recipe_id_rows note_sheet) 0 2 = None
    /\ marker_step numbered_ids note_sheet (recipe_id_rows note_sheet) 0 2 initial_state
       = Ok st'
    /\ recipes st' = recipes initial_state ++ [r]
    /\ rcp_category r = "".
Proof.
  eexists. eexists.
  split; [vm_compute; reflexivity|]. split; [vm_compute; reflexivity|].
  split; [vm_compute; reflexivity|]. split; [vm_compute; reflexivity|].
  refine (proj2 (category_empty_until_resolved numbered_ids note_sheet [] 2 []
                   initial_state _ _ _ _ _ _ _)).
  - vm_compute; reflexivity.
  - intros [|[|k]] rid H; cbn in H; try discriminate.
    injection H as <-. vm_compute; reflexivity.
  - reflexivity.
  - vm_compute; reflexivity.
  - vm_compute; reflexivity.
Defined.
